(** * Hive-Mind: sessions, agents and task dispatch

    A shallow embedding of [hivemind/agents/Agent.ts],
    [hivemind/core/AgentHub.ts] and the session manager
    ([Session] and [SessionManager]), together with the properties of the
    orchestration layer that the specification states about them.

    Conventions of the embedding.
    - A JavaScript [Map] is an insertion-ordered association list
      ([JsMap]): [getAgentByName] returns the first match in iteration
      order, so the order is part of the data.
    - [Date.now()], [crypto.randomUUID()] and [Math.random()] read the
      [World]: three streams of readings and a cursor in each one.
    - A method that mutates [this] takes the object and returns the new
      one; a method that may throw returns a [Completion].
    - Task objects are mutated after they were stored in the task
      registry and while [submitTask] is suspended at its [await], so
      they live in a store ([objects]) and the registry holds references.
*)

From Stdlib Require Import ZArith QArith String Ascii List Lia DecimalString.
From stdpp Require Import base option list strings.

Local Open Scope string_scope.
Local Open Scope list_scope.
Local Open Scope nat_scope.

(** ** The ambient runtime *)

Record World := mkWorld {
  clock : nat -> Z;          (* the successive readings of Date.now() *)
  uuidSource : nat -> string; (* the successive results of crypto.randomUUID() *)
  entropy : nat -> nat;      (* the successive draws behind Math.random() *)
  ticks : nat;               (* readings of the clock taken so far *)
  uuids : nat;               (* identifiers drawn so far *)
  draws : nat                (* random numbers drawn so far *)
}.

Definition IO (A : Type) : Type := World -> A * World.

Definition io_ret {A} (a : A) : IO A := fun w => (a, w).

Definition io_bind {A B} (m : IO A) (k : A -> IO B) : IO B :=
  fun w => let (a, w') := m w in k a w'.

Notation "'let*' x ':=' m 'in' k" := (io_bind m (fun x => k))
  (at level 10, x pattern, m at level 100, k at level 200).

(** [Date.now()] *)
Definition Date_now : IO Z := fun w =>
  (clock w (ticks w),
   mkWorld (clock w) (uuidSource w) (entropy w) (S (ticks w)) (uuids w) (draws w)).

(** [crypto.randomUUID()] *)
Definition randomUUID : IO string := fun w =>
  (uuidSource w (uuids w),
   mkWorld (clock w) (uuidSource w) (entropy w) (ticks w) (S (uuids w)) (draws w)).

(** [Math.floor(Math.random() * n)]: a draw below [n]. *)
Definition random_below (n : nat) : IO nat := fun w =>
  (entropy w (draws w) mod n,
   mkWorld (clock w) (uuidSource w) (entropy w) (ticks w) (uuids w) (S (draws w))).

(** The clock never runs backwards. *)
Definition clock_monotone (w : World) : Prop :=
  forall i j, i <= j -> (clock w i <= clock w j)%Z.

(** A value thrown by JavaScript code: an [Error] with its message, or
    anything else ([error instanceof Error] is false). *)
Inductive JsThrown : Type :=
  | ErrorObj (message : string)
  | NonError.

(** How a call ends: with a value, or with a thrown value. *)
Inductive Completion (A : Type) : Type :=
  | Normal (a : A)
  | Throw (e : JsThrown).
Arguments Normal {A} a.
Arguments Throw {A} e.

(** A JavaScript [number] as far as this code looks at one: it is stored,
    passed on and tested for truthiness, never computed with. *)
Inductive JsNumber : Type :=
  | NaN
  | Num (q : Q).

Definition truthy (n : JsNumber) : bool :=
  match n with
  | NaN => false
  | Num q => negb (Qeq_bool q 0)
  end.

Definition LF : string := String (ascii_of_nat 10) EmptyString.

(** [`${n}`] for a non-negative integer. *)
Definition decimal (n : nat) : string := NilEmpty.string_of_uint (Nat.to_uint n).

(** ** JavaScript [Map] with string keys *)

Module JsMap.

Definition t (V : Type) : Type := list (string * V).

Definition empty {V} : t V := [].

Fixpoint get {V} (k : string) (m : t V) : option V :=
  match m with
  | [] => None
  | (k', v) :: rest => if String.eqb k k' then Some v else get k rest
  end.

(** [set] keeps the position of a key that is already there and appends
    a new one. *)
Fixpoint set {V} (k : string) (v : V) (m : t V) : t V :=
  match m with
  | [] => [(k, v)]
  | (k', v') :: rest =>
      if String.eqb k k' then (k, v) :: rest else (k', v') :: set k v rest
  end.

Fixpoint delete {V} (k : string) (m : t V) : t V :=
  match m with
  | [] => []
  | (k', v) :: rest =>
      if String.eqb k k' then delete k rest else (k', v) :: delete k rest
  end.

Definition clear {V} (m : t V) : t V := [].

Definition size {V} (m : t V) : nat := length m.

Definition entries {V} (m : t V) : list (string * V) := m.

Definition values {V} (m : t V) : list V := map snd m.

End JsMap.

(** ** Agents ([hivemind/agents/Agent.ts]) *)

Module Agent.

Inductive Role : Type := user | assistant | system.

Record AgentMessage := mkMessage {
  role : Role;
  content : string;
  timestamp : Z
}.

Record AgentConfig := mkConfig {
  cfg_name : string;
  cfg_provider : string;
  cfg_model : string;
  cfg_systemPrompt : string
}.

(** How [await agent.execute(input)] ends: with the value of the promise
    when it is fulfilled, or with a thrown value, the reason of the
    promise when it is rejected or what [execute] itself threw when it
    returned no promise. *)
Inductive Settled : Type :=
  | Fulfilled (value : string)
  | Rejected (reason : JsThrown).

(** The concrete class of an agent decides its [execute]. A subclass
    defined outside this file is [CustomAgent]: its [execute] maps the
    input and the history it finds to the way its promise settles and
    the history it leaves. A subclass whose [execute] is not an [async]
    method is [PlainAgent]: its [execute] either throws before it returns
    ([inl]) or returns a promise ([inr], with the way it settles). *)
Inductive Variant : Type :=
  | ArchitectAgent
  | DevilsAdvocateAgent
  | HistorianAgent
  | ScribeAgent
  | CustomAgent (run : string -> list AgentMessage -> Settled * list AgentMessage)
  | PlainAgent (run : string -> list AgentMessage
                      -> (JsThrown + Settled) * list AgentMessage).

Record t := mkAgent {
  id : string;
  name : string;
  provider : string;
  model : string;
  systemPrompt : string;
  history : list AgentMessage;
  variant : Variant
}.

Definition with_history (h : list AgentMessage) (a : t) : t :=
  mkAgent (id a) (name a) (provider a) (model a) (systemPrompt a) h (variant a).

(** [constructor(config)] of the base class, for the subclass [v]. *)
Definition new (v : Variant) (config : AgentConfig) : IO t :=
  let* uuid := randomUUID in
  io_ret (mkAgent uuid (cfg_name config) (cfg_provider config) (cfg_model config)
                  (cfg_systemPrompt config) [] v).

Definition addToHistory (message : AgentMessage) (a : t) : t :=
  with_history (history a ++ [message]) a.

Definition getHistory (a : t) : list AgentMessage := history a.

Definition clearHistory (a : t) : t := with_history [] a.

Definition role_name (r : Role) : string :=
  match r with user => "user" | assistant => "assistant" | system => "system" end.

Definition getContext (a : t) : string :=
  String.concat LF (map (fun m => role_name (role m) +:+ ": " +:+ content m) (history a)).

Definition new_ArchitectAgent : IO t :=
  new ArchitectAgent
    (mkConfig "The Architect" "anthropic" "claude-3-5-sonnet"
       "You are The Architect, a senior software architect.
Your role is to maintain the big picture of the codebase.
You prevent spaghetti code by suggesting proper structure.
You review code for architectural patterns and best practices.").

Definition new_DevilsAdvocateAgent : IO t :=
  new DevilsAdvocateAgent
    (mkConfig "The Devil's Advocate" "openai" "gpt-4o"
       "You are The Devil's Advocate, a chaos engineer.
Your role is to actively try to break code logic.
You look for edge cases, race conditions, and potential failures.
You challenge assumptions and find weaknesses.").

Definition new_HistorianAgent : IO t :=
  new HistorianAgent
    (mkConfig "The Historian" "google" "gemini-pro-1.5"
       ("You are The Historian, the keeper of context.
You remember every git commit and chat message.
You answer " +:+ String (ascii_of_nat 34) "Why did we do this?" +:+ String (ascii_of_nat 34)
" questions.
You provide historical context for decisions.")).

Definition new_ScribeAgent : IO t :=
  new ScribeAgent
    (mkConfig "The Scribe" "mistral" "mistral-small"
       "You are The Scribe, the documentation specialist.
You update README and comments in real-time.
You ensure code is well-documented and accessible.
You write clear, concise documentation.").

Definition ArchitectAgent_execute (input : string) (a : t) : IO (string * t) :=
  let* t1 := Date_now in
  let a1 := addToHistory (mkMessage user input t1) a in
  let response := "[Architect Analysis]" +:+ LF +:+ input in
  let* t2 := Date_now in
  let a2 := addToHistory (mkMessage assistant response t2) a1 in
  io_ret (response, a2).

Definition DevilsAdvocateAgent_execute (input : string) (a : t) : IO (string * t) :=
  let* t1 := Date_now in
  let a1 := addToHistory (mkMessage user input t1) a in
  let response := "[Chaos Analysis]" +:+ LF +:+ input in
  let* t2 := Date_now in
  let a2 := addToHistory (mkMessage assistant response t2) a1 in
  io_ret (response, a2).

Definition HistorianAgent_execute (input : string) (a : t) : IO (string * t) :=
  let* t1 := Date_now in
  let a1 := addToHistory (mkMessage user input t1) a in
  let response := "[Historical Context]" +:+ LF +:+ input in
  let* t2 := Date_now in
  let a2 := addToHistory (mkMessage assistant response t2) a1 in
  io_ret (response, a2).

Definition ScribeAgent_execute (input : string) (a : t) : IO (string * t) :=
  let* t1 := Date_now in
  let a1 := addToHistory (mkMessage user input t1) a in
  let response := "[Documentation]" +:+ LF +:+ input in
  let* t2 := Date_now in
  let a2 := addToHistory (mkMessage assistant response t2) a1 in
  io_ret (response, a2).

(** [agent.execute(input)], dispatched on the class of the receiver. The
    body of a built-in [execute] has no [await]: it runs to its end when
    it is called and its promise is fulfilled. *)
Definition execute (input : string) (a : t) : IO (Settled * t) :=
  match variant a with
  | ArchitectAgent =>
      let* (r, a') := ArchitectAgent_execute input a in io_ret (Fulfilled r, a')
  | DevilsAdvocateAgent =>
      let* (r, a') := DevilsAdvocateAgent_execute input a in io_ret (Fulfilled r, a')
  | HistorianAgent =>
      let* (r, a') := HistorianAgent_execute input a in io_ret (Fulfilled r, a')
  | ScribeAgent =>
      let* (r, a') := ScribeAgent_execute input a in io_ret (Fulfilled r, a')
  | CustomAgent run =>
      let '(outcome, h) := run input (history a) in io_ret (outcome, with_history h a)
  | PlainAgent run =>
      let '(outcome, h) := run input (history a) in
      io_ret (match outcome with inl thrown => Rejected thrown | inr settled => settled end,
              with_history h a)
  end.

(** Whether [agent.execute(input)] throws instead of returning a promise.
    An [async] method never does: what it throws rejects its promise. *)
Definition throws_synchronously (input : string) (a : t) : bool :=
  match variant a with
  | PlainAgent run =>
      match fst (run input (history a)) with inl _ => true | inr _ => false end
  | _ => false
  end.

(** Whether [execute] is an [async] method. *)
Definition is_async (a : t) : bool :=
  match variant a with
  | PlainAgent _ => false
  | _ => true
  end.

End Agent.

(** A reference to a [KeyVault] object. The vault is shared: the hub, the
    session manager and every session hold a reference to it, never a
    copy. *)
Definition VaultRef : Type := nat.

(** ** The agent hub ([hivemind/core/AgentHub.ts]) *)

Module AgentHub.

Inductive Status : Type := pending | running | completed | failed.

Record AgentTask := mkTask {
  id : string;
  agentId : string;
  input : string;
  status : Status;
  result : option string;
  error : option string;
  startTime : option Z;
  endTime : option Z
}.

Definition with_status (s : Status) (k : AgentTask) : AgentTask :=
  mkTask (id k) (agentId k) (input k) s (result k) (error k) (startTime k) (endTime k).

Definition with_result (r : string) (k : AgentTask) : AgentTask :=
  mkTask (id k) (agentId k) (input k) (status k) (Some r) (error k) (startTime k) (endTime k).

Definition with_error (e : string) (k : AgentTask) : AgentTask :=
  mkTask (id k) (agentId k) (input k) (status k) (result k) (Some e) (startTime k) (endTime k).

Definition with_endTime (z : Z) (k : AgentTask) : AgentTask :=
  mkTask (id k) (agentId k) (input k) (status k) (result k) (error k) (startTime k) (Some z).

(** A reference to a task object: its index in [objects]. *)
Definition TaskRef : Type := nat.

Record t := mkHub {
  agents : JsMap.t Agent.t;
  tasks : JsMap.t TaskRef;
  objects : list AgentTask;   (* the task objects created so far *)
  keyVault : VaultRef
}.

(** An assignment to a field of the task object behind [r]. *)
Definition update (r : TaskRef) (f : AgentTask -> AgentTask) (h : t) : t :=
  mkHub (agents h) (tasks h) (alter f r (objects h)) (keyVault h).

Definition deref (r : TaskRef) (h : t) : option AgentTask := objects h !! r.

Definition registerAgent (agent : Agent.t) (h : t) : t :=
  mkHub (JsMap.set (Agent.id agent) agent (agents h)) (tasks h) (objects h) (keyVault h).

Definition unregisterAgent (agentId : string) (h : t) : t :=
  mkHub (JsMap.delete agentId (agents h)) (tasks h) (objects h) (keyVault h).

Definition initializeDefaultAgents (h : t) : IO t :=
  let* a1 := Agent.new_ArchitectAgent in
  let* a2 := Agent.new_DevilsAdvocateAgent in
  let* a3 := Agent.new_HistorianAgent in
  let* a4 := Agent.new_ScribeAgent in
  io_ret (fold_left (fun h agent => registerAgent agent h) [a1; a2; a3; a4] h).

(** [new AgentHub(keyVault)] *)
Definition new (keyVault : VaultRef) : IO t :=
  initializeDefaultAgents (mkHub JsMap.empty JsMap.empty [] keyVault).

Definition getAgent (agentId : string) (h : t) : option Agent.t :=
  JsMap.get agentId (agents h).

(** The first entry, in iteration order, whose agent has the name. *)
Definition findByName (name : string) (h : t) : option (string * Agent.t) :=
  find (fun e => String.eqb (Agent.name (snd e)) name) (JsMap.entries (agents h)).

Definition getAgentByName (name : string) (h : t) : option Agent.t :=
  snd <$> findByName name h.

Definition listAgents (h : t) : list Agent.t := JsMap.values (agents h).

(** [submitTask] is an [async] function with one [await]. What it holds
    when [agent.execute(input)] has been called: the task object and the
    way that call ends. *)
Record Suspended := mkSuspended {
  task : TaskRef;
  awaited : Agent.Settled
}.

(** [submitTask] from its call to the end of the call
    [agent.execute(input)]: the lookup, the creation and registration of
    the task, [status = 'running'] and the call of [execute], which runs
    the agent up to its own first suspension. What follows is
    [submitTask_resume]: after the [await] when [execute] has returned a
    promise, at once when [execute] has thrown (see [submitTask_call]). *)
Definition submitTask_begin (agentId input : string) (h : t)
  : IO (Completion Suspended * t) :=
  match JsMap.get agentId (agents h) with
  | None => io_ret (Throw (ErrorObj ("Agent " +:+ agentId +:+ " not found")), h)
  | Some agent =>
      let* uuid := randomUUID in
      let* now := Date_now in
      let task := mkTask uuid agentId input pending None None (Some now) None in
      let r := length (objects h) in
      let h1 := mkHub (agents h) (JsMap.set uuid r (tasks h)) (objects h ++ [task])
                      (keyVault h) in
      let h2 := update r (with_status running) h1 in
      let* (outcome, agent') := Agent.execute input agent in
      let h3 := mkHub (JsMap.set agentId agent' (agents h2)) (tasks h2) (objects h2)
                      (keyVault h2) in
      io_ret (Normal (mkSuspended r outcome), h3)
  end.

(** [error instanceof Error ? error.message : 'Unknown error'] *)
Definition error_text (e : JsThrown) : string :=
  match e with
  | ErrorObj message => message
  | NonError => "Unknown error"
  end.

(** [submitTask] from the settlement of the awaited promise to its
    [return]: the rest of the [try] or the [catch], then the [finally]. *)
Definition submitTask_resume (s : Suspended) (h : t) : IO (TaskRef * t) :=
  let h1 :=
    match awaited s with
    | Agent.Fulfilled value =>
        update (task s) (with_status completed) (update (task s) (with_result value) h)
    | Agent.Rejected reason =>
        update (task s) (with_error (error_text reason))
          (update (task s) (with_status failed) h)
    end in
  let* now := Date_now in
  io_ret (task s, update (task s) (with_endTime now) h1).

(** What a call [hub.submitTask(agentId, input)] runs before it hands
    control back to its caller. When [execute] has returned a promise the
    call is suspended at its [await] ([Some]) with its task [running].
    When [execute] has thrown, the [catch] and the [finally] clauses run
    in the same turn: the task is [failed] and has its end time, and
    nothing is left suspended ([None]). *)
Definition submitTask_call (agentId input : string) (h : t)
  : IO (Completion (option Suspended) * t) :=
  let threw :=
    match JsMap.get agentId (agents h) with
    | Some agent => Agent.throws_synchronously input agent
    | None => false
    end in
  let* (c, h1) := submitTask_begin agentId input h in
  match c with
  | Throw e => io_ret (Throw e, h1)
  | Normal s =>
      if threw
      then let* (r, h2) := submitTask_resume s h1 in io_ret (Normal None, h2)
      else io_ret (Normal (Some s), h1)
  end.

(** [await hub.submitTask(agentId, input)]: nothing else runs between the
    two halves. The value is the task object, by reference. *)
Definition submitTask (agentId input : string) (h : t) : IO (Completion TaskRef * t) :=
  let* (c, h1) := submitTask_begin agentId input h in
  match c with
  | Throw e => io_ret (Throw e, h1)
  | Normal s => let* (r, h2) := submitTask_resume s h1 in io_ret (Normal r, h2)
  end.

(** The four convenience methods: resolve the agent by name and hand back
    its promise. *)
Definition dispatchByName (name missing input : string) (h : t)
  : IO (Completion string * t) :=
  match findByName name h with
  | None => io_ret (Throw (ErrorObj missing), h)
  | Some (key, agent) =>
      let* (outcome, agent') := Agent.execute input agent in
      let h' := mkHub (JsMap.set key agent' (agents h)) (tasks h) (objects h) (keyVault h) in
      match outcome with
      | Agent.Fulfilled value => io_ret (Normal value, h')
      | Agent.Rejected reason => io_ret (Throw reason, h')
      end
  end.

Definition askArchitect (question : string) : t -> IO (Completion string * t) :=
  dispatchByName "The Architect" "Architect agent not available" question.

Definition challengeCode (code : string) : t -> IO (Completion string * t) :=
  dispatchByName "The Devil's Advocate" "Devil's Advocate agent not available" code.

Definition getHistory (query : string) : t -> IO (Completion string * t) :=
  dispatchByName "The Historian" "Historian agent not available" query.

Definition documentCode (code : string) : t -> IO (Completion string * t) :=
  dispatchByName "The Scribe" "Scribe agent not available" code.

Definition getTask (taskId : string) (h : t) : option AgentTask :=
  match JsMap.get taskId (tasks h) with
  | Some r => deref r h
  | None => None
  end.

Definition getTasksByAgent (a : string) (h : t) : list AgentTask :=
  filter (fun k => agentId k = a) (omap (fun r => deref r h) (JsMap.values (tasks h))).

End AgentHub.

(** ** The collaborators of a session *)

(** Modelled from the spec: the [KeyVault] class (imported from
    [./KeyVault]) is not among the sources. The budget ledger
    collaborator exposes [getBudgetRemaining() -> amount] and
    [recordSpend(cost) -> accepted: boolean]; nothing else is known of
    it, so a vault is any type with these two operations. *)
Class KeyVault (K : Type) := {
  kv_getBudgetRemaining : K -> JsNumber;
  kv_recordSpend : JsNumber -> K -> bool * K
}.

(** The vault objects, by reference. *)
Definition Vaults (K : Type) : Type := VaultRef -> K.

Definition write_vault {K} (r : VaultRef) (k : K) (vs : Vaults K) : Vaults K :=
  fun r' => if Nat.eqb r' r then k else vs r'.

Module SyncEngine.

(** Modelled from the spec: the [SyncEngine] class (imported from
    [../sync/SyncEngine]) is not among the sources. The
    synchronization-engine collaborator is constructed with the host's
    identifier and exposes at least [removeCursor(participantId)]. An
    engine is represented by what it was constructed with and the calls
    it has received since, in order. *)
Record t := mkEngine {
  owner : string;
  removeCursorCalls : list string
}.

(** Modelled from the spec: [new SyncEngine(hostId)], a fresh engine that
    has received no call. *)
Definition new (hostId : string) : t := mkEngine hostId [].

(** Modelled from the spec: [removeCursor(participantId)], recorded as
    one more call received. *)
Definition removeCursor (participantId : string) (e : t) : t :=
  mkEngine (owner e) (removeCursorCalls e ++ [participantId]).

End SyncEngine.

(** ** Sessions and the session manager *)

Module Participant.

Record t := mkParticipant {
  id : string;
  username : string;
  color : string;
  isHost : bool;
  joinedAt : Z;
  lastSeen : Z
}.

Definition with_color (c : string) (p : t) : t :=
  mkParticipant (id p) (username p) c (isHost p) (joinedAt p) (lastSeen p).

End Participant.

Module SessionConfig.

Record t := mkConfig {
  name : string;
  hostId : string;
  budget : JsNumber;
  allowGuests : bool
}.

End SessionConfig.

(** [a || b] on strings: the empty string is the only falsy one. *)
Definition or_else (a b : string) : string :=
  match a with
  | EmptyString => b
  | String _ _ => a
  end.

Module Session.

Record t := mkSession {
  id : string;
  name : string;
  hostId : string;
  participants : JsMap.t Participant.t;
  syncEngine : SyncEngine.t;
  keyVault : VaultRef;
  budget : JsNumber;
  isActive : bool
}.

Record Status := mkStatus {
  st_id : string;
  st_name : string;
  st_participants : nat;
  st_budgetRemaining : JsNumber;
  st_isActive : bool
}.

Definition adjectives : list string := ["cool"; "epic"; "awesome"; "blazing"; "stellar"].
Definition nouns : list string := ["project"; "code"; "hack"; "build"; "venture"].

Definition generateSessionId : IO string :=
  let* i := random_below (length adjectives) in
  let adj := nth i adjectives EmptyString in
  let* j := random_below (length nouns) in
  let noun := nth j nouns EmptyString in
  let* num := random_below 1000 in
  io_ret (adj +:+ "-" +:+ noun +:+ "-" +:+ decimal num).

Definition colors : list string :=
  ["#FF6B6B"; "#4ECDC4"; "#45B7D1"; "#96CEB4";
   "#FFEAA7"; "#DDA0DD"; "#98D8C8"; "#F7DC6F"].

Definition generateColor (s : t) : string :=
  nth (JsMap.size (participants s) mod length colors) colors EmptyString.

Definition getInviteLink (s : t) : string := "hivemind.io/join/" +:+ id s.

(** [addParticipant] assigns to a field of its argument: the second
    component is the argument as the caller finds it afterwards, the
    very object that is stored. *)
Definition addParticipant (participant : Participant.t) (s : t) : t * Participant.t :=
  let participant' :=
    Participant.with_color
      (or_else (Participant.color participant) (generateColor s)) participant in
  (mkSession (id s) (name s) (hostId s)
     (JsMap.set (Participant.id participant') participant' (participants s))
     (syncEngine s) (keyVault s) (budget s) (isActive s),
   participant').

Definition removeParticipant (participantId : string) (s : t) : t :=
  mkSession (id s) (name s) (hostId s)
    (JsMap.delete participantId (participants s))
    (SyncEngine.removeCursor participantId (syncEngine s))
    (keyVault s) (budget s) (isActive s).

Definition getParticipant (i : string) (s : t) : option Participant.t :=
  JsMap.get i (participants s).

Definition getParticipants (s : t) : list Participant.t :=
  JsMap.values (participants s).

Definition isHost (userId : string) (s : t) : bool := String.eqb (hostId s) userId.

Definition getSyncEngine (s : t) : SyncEngine.t := syncEngine s.

Definition getBudgetRemaining {K} `{KeyVault K} (s : t) (vs : Vaults K) : JsNumber :=
  kv_getBudgetRemaining (vs (keyVault s)).

Definition recordAiUsage {K} `{KeyVault K} (cost : JsNumber) (s : t) (vs : Vaults K)
  : bool * Vaults K :=
  let (accepted, k) := kv_recordSpend cost (vs (keyVault s)) in
  (accepted, write_vault (keyVault s) k vs).

Definition end_ (s : t) : t :=
  mkSession (id s) (name s) (hostId s) (JsMap.clear (participants s))
    (syncEngine s) (keyVault s) (budget s) false.

Definition getStatus {K} `{KeyVault K} (s : t) (vs : Vaults K) : Status :=
  mkStatus (id s) (name s) (JsMap.size (participants s)) (getBudgetRemaining s vs)
    (isActive s).

(** [new Session(config, keyVault)] *)
Definition new (config : SessionConfig.t) (keyVault : VaultRef) : IO t :=
  let* sid := generateSessionId in
  let s := mkSession sid (SessionConfig.name config) (SessionConfig.hostId config)
             JsMap.empty (SyncEngine.new (SessionConfig.hostId config)) keyVault
             (SessionConfig.budget config) true in
  let c := generateColor s in
  let* joinedAt := Date_now in
  let* lastSeen := Date_now in
  io_ret (fst (addParticipant
                 (Participant.mkParticipant (SessionConfig.hostId config) "Host" c true
                    joinedAt lastSeen) s)).

(** A call of one of the public methods of a session. *)
Inductive Call : Type :=
  | GetInviteLink
  | AddParticipant (participant : Participant.t)
  | RemoveParticipant (participantId : string)
  | GetParticipant (i : string)
  | GetParticipants
  | IsHost (userId : string)
  | GetSyncEngine
  | GetBudgetRemaining
  | RecordAiUsage (cost : JsNumber)
  | End
  | GetStatus.

(** The session after the call. The accessors and the two budget
    methods assign to no field of the session. *)
Definition after (c : Call) (s : t) : t :=
  match c with
  | AddParticipant participant => fst (addParticipant participant s)
  | RemoveParticipant participantId => removeParticipant participantId s
  | End => end_ s
  | GetInviteLink | GetParticipant _ | GetParticipants | IsHost _ | GetSyncEngine
  | GetBudgetRemaining | RecordAiUsage _ | GetStatus => s
  end.

(** Successive [addParticipant] calls; the participants are returned as
    the calls leave them. *)
Fixpoint addParticipants (ps : list Participant.t) (s : t) : t * list Participant.t :=
  match ps with
  | [] => (s, [])
  | p :: rest =>
      let (s1, p') := addParticipant p s in
      let (s2, rest') := addParticipants rest s1 in
      (s2, p' :: rest')
  end.

End Session.

Module SessionManager.

Record t := mkManager {
  sessions : JsMap.t Session.t;
  keyVault : VaultRef
}.

(** [Omit<SessionConfig, 'budget'> & { budget?: number }] *)
Record CreateConfig := mkCreate {
  name : string;
  hostId : string;
  allowGuests : bool;
  budget : option JsNumber
}.

(** [Omit<Participant, 'isHost' | 'joinedAt' | 'lastSeen'>] *)
Record ParticipantStub := mkStub {
  id : string;
  username : string;
  color : string
}.

Definition new (keyVault : VaultRef) : t := mkManager JsMap.empty keyVault.

(** [config.budget || 5.00] *)
Definition budget_or_default (b : option JsNumber) : JsNumber :=
  match b with
  | Some n => if truthy n then n else Num 5
  | None => Num 5
  end.

Definition createSession (config : CreateConfig) (m : t) : IO (Session.t * t) :=
  let* session :=
    Session.new
      (SessionConfig.mkConfig (name config) (hostId config)
         (budget_or_default (budget config)) (allowGuests config))
      (keyVault m) in
  io_ret (session,
          mkManager (JsMap.set (Session.id session) session (sessions m)) (keyVault m)).

Definition getSession (sessionId : string) (m : t) : option Session.t :=
  JsMap.get sessionId (sessions m).

(** The session found in the registry is changed in place: the registry
    holds it under the key it was found with. *)
Definition joinSession (sessionId : string) (participant : ParticipantStub) (m : t)
  : IO (Completion Session.t * t) :=
  match JsMap.get sessionId (sessions m) with
  | None => io_ret (Throw (ErrorObj ("Session " +:+ sessionId +:+ " not found")), m)
  | Some session =>
      let* joinedAt := Date_now in
      let* lastSeen := Date_now in
      let session' :=
        fst (Session.addParticipant
               (Participant.mkParticipant (id participant) (username participant)
                  (color participant) false joinedAt lastSeen) session) in
      io_ret (Normal session',
              mkManager (JsMap.set sessionId session' (sessions m)) (keyVault m))
  end.

Definition leaveSession (sessionId participantId : string) (m : t) : t :=
  match JsMap.get sessionId (sessions m) with
  | Some session =>
      mkManager
        (JsMap.set sessionId (Session.removeParticipant participantId session) (sessions m))
        (keyVault m)
  | None => m
  end.

(** The first component is the session object as [end()] leaves it, for
    whoever still holds it; the registry forgets it. *)
Definition endSession (sessionId : string) (m : t) : option Session.t * t :=
  match JsMap.get sessionId (sessions m) with
  | Some session =>
      (Some (Session.end_ session),
       mkManager (JsMap.delete sessionId (sessions m)) (keyVault m))
  | None => (None, m)
  end.

Definition listSessions (m : t) : list Session.t := JsMap.values (sessions m).

End SessionManager.

(** ** Calls in flight

    A caller that does not [await] a [submitTask] before it makes the
    next call has several of them suspended at once. An [Event] is either
    such a call, which runs up to its [await] (or to its end, when the
    agent throws instead of returning a promise), or the settlement of
    the promise that the [i]-th suspended call waits for, which runs that
    call to its end. *)

Module Runtime.

Inductive Event : Type :=
  | Submit (agentId input : string)
  | Settle (i : nat).

Record t := mkRuntime {
  hub : AgentHub.t;
  world : World;
  inflight : list AgentHub.Suspended
}.

Definition step (e : Event) (r : t) : t :=
  match e with
  | Submit agentId input =>
      match AgentHub.submitTask_call agentId input (hub r) (world r) with
      | ((Normal (Some s), h), w) => mkRuntime h w (inflight r ++ [s])
      | ((Normal None, h), w) => mkRuntime h w (inflight r)
      | ((Throw _, h), w) => mkRuntime h w (inflight r)
      end
  | Settle i =>
      match inflight r !! i with
      | Some s =>
          match AgentHub.submitTask_resume s (hub r) (world r) with
          | ((_, h), w) => mkRuntime h w (delete i (inflight r))
          end
      | None => r
      end
  end.

Definition run (es : list Event) (r : t) : t := fold_left (fun r e => step e r) es r.

Definition is_running (k : AgentHub.AgentTask) : bool :=
  match AgentHub.status k with
  | AgentHub.running => true
  | _ => false
  end.

(** The tasks of an agent that have started and not finished. *)
Definition executing (agentId : string) (h : AgentHub.t) : list AgentHub.AgentTask :=
  List.filter (fun k => is_running k && String.eqb (AgentHub.agentId k) agentId)
    (AgentHub.objects h).

End Runtime.

(** ** Vocabulary of the statements *)

(** The world in which [submitTask] calls [agent.execute]: one identifier
    and one reading of the clock have been taken for the task record. *)
Definition world_at_execute (w : World) : World :=
  snd (Date_now (snd (randomUUID w))).

(** The way the promise of [agent.execute(input)] settles when
    [submitTask] calls it in the world [w]. *)
Definition settles (input : string) (agent : Agent.t) (w : World) : Agent.Settled :=
  fst (fst (Agent.execute input agent (world_at_execute w))).

(** An optional text that is there and is not the empty string. *)
Definition nonempty (o : option string) : Prop :=
  exists s, o = Some s /\ s <> EmptyString.

(** The tag of a built-in agent, and its labeled echo of an input. *)
Definition tag_of (v : Agent.Variant) : option string :=
  match v with
  | Agent.ArchitectAgent => Some "[Architect Analysis]"
  | Agent.DevilsAdvocateAgent => Some "[Chaos Analysis]"
  | Agent.HistorianAgent => Some "[Historical Context]"
  | Agent.ScribeAgent => Some "[Documentation]"
  | Agent.CustomAgent _ => None
  | Agent.PlainAgent _ => None
  end.

Definition labeled_echo (tag input : string) : string := tag +:+ LF +:+ input.

(** The palette colour at an index. *)
Definition palette (i : nat) : string := nth i Session.colors EmptyString.

(** The task record that a call leaves behind, given the identifier and
    the two readings of the clock it took and the way the agent's promise
    settled. *)
Definition recorded (uuid agentId input : string) (t0 : Z) (outcome : Agent.Settled)
  (t1 : Z) : AgentHub.AgentTask :=
  match outcome with
  | Agent.Fulfilled value =>
      AgentHub.mkTask uuid agentId input AgentHub.completed (Some value) None
        (Some t0) (Some t1)
  | Agent.Rejected reason =>
      AgentHub.mkTask uuid agentId input AgentHub.failed None
        (Some (AgentHub.error_text reason)) (Some t0) (Some t1)
  end.

(** The session after a sequence of calls. *)
Definition calls_after (calls : list Session.Call) (s : Session.t) : Session.t :=
  fold_left (fun s c => Session.after c s) calls s.

(** The session with another value in its [budget] field. *)
Definition with_budget (b : JsNumber) (s : Session.t) : Session.t :=
  Session.mkSession (Session.id s) (Session.name s) (Session.hostId s)
    (Session.participants s) (Session.syncEngine s) (Session.keyVault s) b
    (Session.isActive s).

(** ** Sample data *)

Definition sample_world : World :=
  mkWorld (fun n => Z.of_nat n) (fun n => "id-" +:+ decimal n) (fun n => n) 0 0 0.

Definition custom_agent (i : string)
  (run : string -> list Agent.AgentMessage -> Agent.Settled * list Agent.AgentMessage)
  : Agent.t :=
  Agent.mkAgent i "custom" "local" "none" EmptyString [] (Agent.CustomAgent run).

(** An agent that answers with its input. *)
Definition echo_agent : Agent.t :=
  custom_agent "a1" (fun input h => (Agent.Fulfilled input, h)).

(** An agent whose answer is the empty string. *)
Definition silent_agent : Agent.t :=
  custom_agent "a1" (fun input h => (Agent.Fulfilled EmptyString, h)).

(** An agent that fails with [throw new Error("provider down")]. *)
Definition failing_agent : Agent.t :=
  custom_agent "a1" (fun input h => (Agent.Rejected (ErrorObj "provider down"), h)).

(** An agent that fails with [throw new Error()]: the message is empty. *)
Definition mute_failing_agent : Agent.t :=
  custom_agent "a1" (fun input h => (Agent.Rejected (ErrorObj EmptyString), h)).

(** An agent whose [execute] is not [async] and throws
    [new Error("boom")] before it returns a promise. *)
Definition throwing_agent : Agent.t :=
  Agent.mkAgent "a1" "custom" "local" "none" EmptyString []
    (Agent.PlainAgent (fun input h => (inl (ErrorObj "boom"), h))).

Definition hub_of (a : Agent.t) : AgentHub.t :=
  AgentHub.registerAgent a (AgentHub.mkHub JsMap.empty JsMap.empty [] 0).

Definition sample_config : SessionConfig.t :=
  SessionConfig.mkConfig "demo" "host-1" (Num 5) true.

(** A session as its constructor leaves it: the host is its only
    participant. *)
Definition sample_session : Session.t := fst (Session.new sample_config 0 sample_world).

Definition guest (i : string) : Participant.t :=
  Participant.mkParticipant i "guest" EmptyString false 0 0.

Definition sample_manager : SessionManager.t :=
  snd (fst (SessionManager.createSession
              (SessionManager.mkCreate "demo" "host-1" true None)
              (SessionManager.new 0) sample_world)).

Definition sample_stub : SessionManager.ParticipantStub :=
  SessionManager.mkStub "u2" "Ada" EmptyString.

(** A ledger for the examples: the amount that is left; a spend is
    accepted when it does not exceed it. *)
Definition sample_spend (cost : JsNumber) (left : Q) : bool * Q :=
  match cost with
  | Num c => if Qle_bool c left then (true, (left - c)%Q) else (false, left)
  | NaN => (false, left)
  end.

#[local] Instance sample_vault : KeyVault Q :=
  {| kv_getBudgetRemaining := Num; kv_recordSpend := sample_spend |}.

Definition sample_vaults : Vaults Q := fun _ => 5%Q.

Definition default_hub : AgentHub.t := fst (AgentHub.new 0 sample_world).
Definition default_world : World := snd (AgentHub.new 0 sample_world).

(** * Properties *)

(** ** Maps *)

Section JsMapFacts.
Context {V : Type}.
Implicit Types (m : JsMap.t V) (k : string) (v : V).

Lemma jsmap_get_set_same k v m : JsMap.get k (JsMap.set k v m) = Some v.
Proof.
  induction m as [|[k' v'] rest IH]; simpl.
  - now rewrite String.eqb_refl.
  - destruct (String.eqb k k') eqn:E; simpl; rewrite ?String.eqb_refl, ?E; auto.
Qed.

Lemma jsmap_get_set_other k k' v m :
  k <> k' -> JsMap.get k' (JsMap.set k v m) = JsMap.get k' m.
Proof.
  intros Hne. induction m as [|[k0 v0] rest IH]; simpl.
  - destruct (String.eqb k' k) eqn:E; auto.
    apply String.eqb_eq in E. congruence.
  - destruct (String.eqb k k0) eqn:E; simpl.
    + apply String.eqb_eq in E. subst k0.
      destruct (String.eqb k' k) eqn:E'; auto.
      apply String.eqb_eq in E'. congruence.
    + destruct (String.eqb k' k0); auto.
Qed.

Lemma jsmap_get_delete_same k m : JsMap.get k (JsMap.delete k m) = None.
Proof.
  induction m as [|[k' v'] rest IH]; simpl; auto.
  destruct (String.eqb k k') eqn:E; simpl; rewrite ?E; auto.
Qed.

Lemma jsmap_get_delete_other k k' m :
  k <> k' -> JsMap.get k' (JsMap.delete k m) = JsMap.get k' m.
Proof.
  intros Hne. induction m as [|[k0 v0] rest IH]; simpl; auto.
  destruct (String.eqb k k0) eqn:E; simpl.
  - apply String.eqb_eq in E. subst k0.
    destruct (String.eqb k' k) eqn:E'; auto.
    apply String.eqb_eq in E'. congruence.
  - destruct (String.eqb k' k0); auto.
Qed.

Lemma jsmap_delete_absent k m : JsMap.get k m = None -> JsMap.delete k m = m.
Proof.
  induction m as [|[k' v'] rest IH]; simpl; auto.
  destruct (String.eqb k k'); [discriminate|].
  intros H. now rewrite IH.
Qed.

Lemma jsmap_delete_delete k m : JsMap.delete k (JsMap.delete k m) = JsMap.delete k m.
Proof. apply jsmap_delete_absent, jsmap_get_delete_same. Qed.

Lemma jsmap_size_set_fresh k v m :
  JsMap.get k m = None -> JsMap.size (JsMap.set k v m) = S (JsMap.size m).
Proof.
  unfold JsMap.size. induction m as [|[k' v'] rest IH]; simpl; auto.
  destruct (String.eqb k k'); [discriminate|].
  intros H. simpl. now rewrite IH.
Qed.

Lemma jsmap_size_set_present k v v0 m :
  JsMap.get k m = Some v0 -> JsMap.size (JsMap.set k v m) = JsMap.size m.
Proof.
  unfold JsMap.size. induction m as [|[k' v'] rest IH]; simpl; [discriminate|].
  destruct (String.eqb k k'); simpl; auto.
Qed.

End JsMapFacts.

(** ** The store of task objects *)

Lemma alter_last {A} (f : A -> A) (l : list A) (x : A) :
  alter f (length l) (l ++ [x]) = l ++ [f x].
Proof. induction l as [|y l IH]; simpl; [reflexivity|]. now f_equal. Qed.

Lemma lookup_last {A} (l : list A) (x : A) : (l ++ [x]) !! length l = Some x.
Proof. induction l as [|y l IH]; simpl; auto. Qed.

(** An agent reads the clock and nothing else of the world, and the
    clock it leaves is not behind the one it found. *)
Lemma execute_world input a w :
  let w' := snd (Agent.execute input a w) in
  clock w' = clock w /\ ticks w <= ticks w'.
Proof.
  unfold Agent.execute.
  destruct (Agent.variant a) as [| | | |run|run]; simpl; try (split; [reflexivity|lia]);
    destruct (run input (Agent.history a)); simpl; split; reflexivity || lia.
Qed.

(** ** [submitTask] *)

Lemma submitTask_begin_registered agentId input h w agent outcome agent' w1 :
  AgentHub.getAgent agentId h = Some agent ->
  Agent.execute input agent (world_at_execute w) = ((outcome, agent'), w1) ->
  AgentHub.submitTask_begin agentId input h w =
    ((Normal (AgentHub.mkSuspended (length (AgentHub.objects h)) outcome),
      AgentHub.mkHub
        (JsMap.set agentId agent' (AgentHub.agents h))
        (JsMap.set (uuidSource w (uuids w)) (length (AgentHub.objects h)) (AgentHub.tasks h))
        (AgentHub.objects h ++
           [AgentHub.mkTask (uuidSource w (uuids w)) agentId input AgentHub.running
              None None (Some (clock w (ticks w))) None])
        (AgentHub.keyVault h)),
     w1).
Proof.
  unfold AgentHub.getAgent, world_at_execute. intros Hget Hexec.
  unfold AgentHub.submitTask_begin. rewrite Hget.
  unfold io_bind, io_ret, randomUUID, Date_now in *. simpl in *.
  rewrite Hexec. unfold AgentHub.update. simpl.
  now rewrite alter_last.
Qed.

Lemma submitTask_registered agentId input h w agent outcome agent' w1 :
  AgentHub.getAgent agentId h = Some agent ->
  Agent.execute input agent (world_at_execute w) = ((outcome, agent'), w1) ->
  AgentHub.submitTask agentId input h w =
    ((Normal (length (AgentHub.objects h)),
      AgentHub.mkHub
        (JsMap.set agentId agent' (AgentHub.agents h))
        (JsMap.set (uuidSource w (uuids w)) (length (AgentHub.objects h)) (AgentHub.tasks h))
        (AgentHub.objects h ++
           [recorded (uuidSource w (uuids w)) agentId input (clock w (ticks w)) outcome
              (clock w1 (ticks w1))])
        (AgentHub.keyVault h)),
     snd (Date_now w1)).
Proof.
  intros Hget Hexec. unfold AgentHub.submitTask, io_bind.
  rewrite (submitTask_begin_registered _ _ _ _ _ _ _ _ Hget Hexec).
  unfold AgentHub.submitTask_resume, io_bind, io_ret, AgentHub.update. simpl.
  destruct outcome; simpl; rewrite !alter_last; reflexivity.
Qed.

(** The reading of the clock at the end of a call is not before the one
    at its start. *)
Lemma end_not_before_start input agent w :
  clock_monotone w ->
  let w1 := snd (Agent.execute input agent (world_at_execute w)) in
  (clock w (ticks w) <= clock w1 (ticks w1))%Z.
Proof.
  intros Hmono w1.
  destruct (execute_world input agent (world_at_execute w)) as [Hc Ht].
  fold w1 in Hc, Ht. rewrite Hc. unfold world_at_execute in *. simpl in *.
  apply Hmono. lia.
Qed.

(** The answer of a built-in agent is never the empty string. *)
Lemma builtin_answer_nonempty input agent w tag value :
  tag_of (Agent.variant agent) = Some tag ->
  settles input agent w = Agent.Fulfilled value ->
  value <> EmptyString.
Proof.
  unfold settles, Agent.execute.
  destruct (Agent.variant agent); simpl; intros Htag Hv; try discriminate;
    injection Hv as <-; discriminate.
Qed.

(** C1 (as amended): a call of [submitTask] for a registered agent whose
    [execute] is fulfilled returns, without throwing, the task record with
    the agent id and the input of the call, status [completed], [result]
    set to the agent's output, [error] absent, and a start time that is
    not after the end time when the clock does not run backwards. The
    result is non-empty exactly when the output is a non-empty string,
    which it is for every built-in agent. *)
Theorem submitTask_completed agentId input h w agent value :
  AgentHub.getAgent agentId h = Some agent ->
  settles input agent w = Agent.Fulfilled value ->
  clock_monotone w ->
  exists r h' w' k,
    AgentHub.submitTask agentId input h w = ((Normal r, h'), w') /\
    AgentHub.deref r h' = Some k /\
    AgentHub.agentId k = agentId /\
    AgentHub.input k = input /\
    AgentHub.status k = AgentHub.completed /\
    AgentHub.result k = Some value /\
    AgentHub.error k = None /\
    (exists t0 t1, AgentHub.startTime k = Some t0 /\ AgentHub.endTime k = Some t1 /\
                   (t0 <= t1)%Z) /\
    (nonempty (AgentHub.result k) <-> value <> EmptyString) /\
    (tag_of (Agent.variant agent) <> None -> nonempty (AgentHub.result k)).
Proof.
  intros Hget Hsettles Hmono.
  pose proof (end_not_before_start input agent w Hmono) as Hle. simpl in Hle.
  pose proof Hsettles as Hs. unfold settles in Hs.
  destruct (Agent.execute input agent (world_at_execute w)) as [[outcome agent'] w1] eqn:Hexec.
  simpl in Hs, Hle. subst outcome.
  eexists _, _, _, _. split.
  { apply (submitTask_registered _ _ _ _ _ _ _ _ Hget Hexec). }
  unfold AgentHub.deref. simpl. rewrite lookup_last. simpl.
  repeat split; try reflexivity.
  - eexists _, _. repeat split; try reflexivity. exact Hle.
  - intros (s & Hs & Hne). now injection Hs as <-.
  - intros Hne. exists value. auto.
  - intros Htag. exists value. split; [reflexivity|].
    destruct (tag_of (Agent.variant agent)) as [tag|] eqn:E; [|congruence].
    eapply builtin_answer_nonempty; eauto.
Qed.

Lemma submitTask_completed_witness :
  AgentHub.getAgent "a1" (hub_of echo_agent) = Some echo_agent /\
  settles "hello" echo_agent sample_world = Agent.Fulfilled "hello" /\
  clock_monotone sample_world /\
  exists r h' w' k,
    AgentHub.submitTask "a1" "hello" (hub_of echo_agent) sample_world = ((Normal r, h'), w') /\
    AgentHub.deref r h' = Some k /\
    AgentHub.agentId k = "a1" /\
    AgentHub.input k = "hello" /\
    AgentHub.status k = AgentHub.completed /\
    AgentHub.result k = Some "hello" /\
    AgentHub.error k = None /\
    (exists t0 t1, AgentHub.startTime k = Some t0 /\ AgentHub.endTime k = Some t1 /\
                   (t0 <= t1)%Z) /\
    (nonempty (AgentHub.result k) <-> "hello" <> EmptyString) /\
    (tag_of (Agent.variant echo_agent) <> None -> nonempty (AgentHub.result k)).
Proof.
  assert (Hget : AgentHub.getAgent "a1" (hub_of echo_agent) = Some echo_agent)
    by reflexivity.
  assert (Hset : settles "hello" echo_agent sample_world = Agent.Fulfilled "hello")
    by reflexivity.
  assert (Hmono : clock_monotone sample_world) by (intros i j Hij; simpl; lia).
  split; [exact Hget|]. split; [exact Hset|]. split; [exact Hmono|].
  exact (submitTask_completed "a1" "hello" (hub_of echo_agent) sample_world echo_agent
           "hello" Hget Hset Hmono).
Defined.

(** C1 (as stated) fails: an agent may answer with the empty string, and
    the completed task then carries an empty [result]. *)
Lemma submitTask_completed_empty_result :
  AgentHub.getAgent "a1" (hub_of silent_agent) = Some silent_agent /\
  settles "hello" silent_agent sample_world = Agent.Fulfilled EmptyString /\
  exists r h' w' k,
    AgentHub.submitTask "a1" "hello" (hub_of silent_agent) sample_world
      = ((Normal r, h'), w') /\
    AgentHub.deref r h' = Some k /\
    AgentHub.status k = AgentHub.completed /\
    AgentHub.result k = Some EmptyString /\
    ~ nonempty (AgentHub.result k).
Proof.
  split; [reflexivity|]. split; [reflexivity|].
  eexists _, _, _, _. split; [reflexivity|]. split; [reflexivity|].
  split; [reflexivity|]. split; [reflexivity|].
  intros (s & Hs & Hne). simpl in Hs. injection Hs as <-. now apply Hne.
Qed.

(** C2 (as amended): a call of [submitTask] for a registered agent never
    throws, however the agent's [execute] ends. When it is rejected the
    returned task has status [failed], no [result], and [error] set to the
    message of the thrown [Error], or to ['Unknown error'] when the thrown
    value is no [Error]; that text is non-empty unless the agent threw an
    [Error] with an empty message. On either path [endTime] is absent
    while the call waits for the agent and is then set, once, to the last
    reading of the clock that the call takes, after the outcome has been
    recorded. *)
Theorem submitTask_failure_captured agentId input h w agent :
  AgentHub.getAgent agentId h = Some agent ->
  exists s h1 w1 k1 h' w' k,
    AgentHub.submitTask_begin agentId input h w = ((Normal s, h1), w1) /\
    AgentHub.awaited s = settles input agent w /\
    AgentHub.deref (AgentHub.task s) h1 = Some k1 /\
    AgentHub.status k1 = AgentHub.running /\
    AgentHub.endTime k1 = None /\
    AgentHub.submitTask agentId input h w = ((Normal (AgentHub.task s), h'), w') /\
    AgentHub.deref (AgentHub.task s) h' = Some k /\
    AgentHub.endTime k = Some (clock w1 (ticks w1)) /\
    clock w' = clock w1 /\ ticks w' = S (ticks w1) /\
    match settles input agent w with
    | Agent.Rejected reason =>
        AgentHub.status k = AgentHub.failed /\
        AgentHub.error k = Some (AgentHub.error_text reason) /\
        AgentHub.result k = None /\
        (nonempty (AgentHub.error k) <-> reason <> ErrorObj EmptyString)
    | Agent.Fulfilled value =>
        AgentHub.status k = AgentHub.completed /\
        AgentHub.result k = Some value /\
        AgentHub.error k = None
    end.
Proof.
  intros Hget. unfold settles.
  destruct (Agent.execute input agent (world_at_execute w)) as [[outcome agent'] w1] eqn:Hexec.
  eexists _, _, _, _, _, _, _. split.
  { apply (submitTask_begin_registered _ _ _ _ _ _ _ _ Hget Hexec). }
  split; [reflexivity|]. unfold AgentHub.deref at 1. simpl. rewrite lookup_last.
  split; [reflexivity|]. split; [reflexivity|]. split; [reflexivity|]. split.
  { apply (submitTask_registered _ _ _ _ _ _ _ _ Hget Hexec). }
  unfold AgentHub.deref. simpl. rewrite lookup_last.
  split; [reflexivity|].
  destruct outcome as [value|reason]; simpl; repeat split; try reflexivity.
  - intros (s & Hs & Hne) ->. simpl in Hs. injection Hs as <-. now apply Hne.
  - intros Hne. eexists. split; [reflexivity|].
    destruct reason as [message|]; simpl; [|discriminate].
    intros ->. now apply Hne.
Qed.

Lemma submitTask_failure_captured_witness :
  AgentHub.getAgent "a1" (hub_of failing_agent) = Some failing_agent /\
  exists r h' w' k,
    AgentHub.submitTask "a1" "hello" (hub_of failing_agent) sample_world
      = ((Normal r, h'), w') /\
    AgentHub.deref r h' = Some k /\
    AgentHub.status k = AgentHub.failed /\
    AgentHub.error k = Some "provider down" /\
    AgentHub.result k = None.
Proof.
  assert (Hget : AgentHub.getAgent "a1" (hub_of failing_agent) = Some failing_agent)
    by reflexivity.
  split; [exact Hget|].
  destruct (submitTask_failure_captured "a1" "hello" (hub_of failing_agent) sample_world
              failing_agent Hget)
    as (s & h1 & w1 & k1 & h' & w' & k & _ & _ & _ & _ & _ & Hs & Hk & _ & _ & _ & Hm).
  change (settles "hello" failing_agent sample_world)
    with (Agent.Rejected (ErrorObj "provider down")) in Hm.
  destruct Hm as (Hst & Herr & Hres & _).
  exists (AgentHub.task s), h', w', k. auto.
Defined.

(** C2 (as stated) fails: an agent may throw an [Error] without a
    message, and the failed task then carries an empty [error]. *)
Lemma submitTask_failed_empty_error :
  AgentHub.getAgent "a1" (hub_of mute_failing_agent) = Some mute_failing_agent /\
  settles "hello" mute_failing_agent sample_world = Agent.Rejected (ErrorObj EmptyString) /\
  exists r h' w' k,
    AgentHub.submitTask "a1" "hello" (hub_of mute_failing_agent) sample_world
      = ((Normal r, h'), w') /\
    AgentHub.deref r h' = Some k /\
    AgentHub.status k = AgentHub.failed /\
    AgentHub.error k = Some EmptyString /\
    ~ nonempty (AgentHub.error k).
Proof.
  split; [reflexivity|]. split; [reflexivity|].
  eexists _, _, _, _. split; [reflexivity|]. split; [reflexivity|].
  split; [reflexivity|]. split; [reflexivity|].
  intros (s & Hs & Hne). simpl in Hs. injection Hs as <-. now apply Hne.
Qed.

(** C3: [submitTask] for an agent id that is not registered throws the
    error [Agent <id> not found] and leaves the hub as it was: no task
    object is created, the task registry and the agent registry are the
    ones before the call, and neither an identifier nor a reading of the
    clock has been taken. *)
Theorem submitTask_unknown_agent agentId input h w :
  AgentHub.getAgent agentId h = None ->
  AgentHub.submitTask agentId input h w
    = ((Throw (ErrorObj ("Agent " +:+ agentId +:+ " not found")), h), w).
Proof.
  unfold AgentHub.getAgent. intros Hget.
  unfold AgentHub.submitTask, AgentHub.submitTask_begin, io_bind, io_ret.
  now rewrite Hget.
Qed.

Lemma submitTask_unknown_agent_witness :
  AgentHub.getAgent "unknown-agent" (hub_of echo_agent) = None /\
  AgentHub.submitTask "unknown-agent" "x" (hub_of echo_agent) sample_world
    = ((Throw (ErrorObj "Agent unknown-agent not found"), hub_of echo_agent), sample_world).
Proof.
  assert (Hget : AgentHub.getAgent "unknown-agent" (hub_of echo_agent) = None)
    by reflexivity.
  split; [exact Hget|].
  exact (submitTask_unknown_agent "unknown-agent" "x" (hub_of echo_agent) sample_world Hget).
Defined.

(** ** Sessions *)

Lemma after_keeps_inactive c s :
  Session.isActive s = false -> Session.isActive (Session.after c s) = false.
Proof. destruct c; simpl; auto. Qed.

Lemma calls_keep_inactive calls s :
  Session.isActive s = false -> Session.isActive (calls_after calls s) = false.
Proof.
  revert s. induction calls as [|c calls IH]; intros s Hs; simpl; auto.
  apply IH, after_keeps_inactive, Hs.
Qed.

(** C4 (as amended): [end()] sets [isActive] to false and discards all
    participants; it cannot throw and a second [end()] changes nothing;
    after it [isActive] stays false whatever is called on the session.
    Every method but [addParticipant] and [removeParticipant] leaves an
    ended session as it is, and [removeParticipant] leaves its participant
    map empty. [addParticipant] does not look at [isActive]: called on an
    ended session it stores the participant, which can then be found in
    the participant map. *)
Theorem end_is_final (s : Session.t) :
  Session.isActive (Session.end_ s) = false /\
  Session.participants (Session.end_ s) = JsMap.empty /\
  Session.end_ (Session.end_ s) = Session.end_ s /\
  (forall calls, Session.isActive (calls_after calls (Session.end_ s)) = false) /\
  (forall c,
     match c with
     | Session.AddParticipant _ | Session.RemoveParticipant _ => True
     | _ => Session.after c (Session.end_ s) = Session.end_ s
     end) /\
  (forall participantId,
     Session.participants
       (Session.after (Session.RemoveParticipant participantId) (Session.end_ s))
     = JsMap.empty) /\
  (forall p,
     let s' := Session.after (Session.AddParticipant p) (Session.end_ s) in
     JsMap.size (Session.participants s') = 1 /\
     exists p', Session.getParticipant (Participant.id p) s' = Some p' /\
                Participant.id p' = Participant.id p).
Proof.
  split; [reflexivity|]. split; [reflexivity|]. split; [reflexivity|].
  split; [intros calls; now apply calls_keep_inactive|].
  split; [intros c; destruct c; simpl; auto|].
  split; [reflexivity|].
  intros p. simpl. split; [reflexivity|].
  eexists. unfold Session.getParticipant. simpl.
  rewrite String.eqb_refl. split; reflexivity.
Qed.

(** C4 (as stated) fails: a participant added after [end()] is stored,
    so the participant map of the ended session changes. *)
Lemma addParticipant_after_end_mutates :
  let ended := Session.end_ sample_session in
  let s' := Session.after (Session.AddParticipant (guest "late")) ended in
  Session.isActive ended = false /\
  Session.getParticipant "late" ended = None /\
  Session.getParticipant "late" s' <> None /\
  s' <> ended.
Proof.
  simpl. split; [reflexivity|]. split; [reflexivity|]. split; discriminate.
Qed.

(** C5: [removeParticipant(id)] removes the participant from the map,
    so that [getParticipant(id)] then finds nothing, leaves the other
    participants alone, and instructs the synchronization-engine
    collaborator to drop the cursor of that id exactly once, at every
    call. Removing an absent id changes nothing of the session: the
    participant map and every other field are the ones before, the
    session differing only in that its collaborator has been instructed;
    and a second removal leaves the map as the first one left it. *)
Theorem removeParticipant_removes (participantId : string) (s : Session.t) :
  let s' := Session.removeParticipant participantId s in
  Session.getParticipant participantId s' = None /\
  (forall other, other <> participantId ->
     Session.getParticipant other s' = Session.getParticipant other s) /\
  SyncEngine.removeCursorCalls (Session.syncEngine s')
    = SyncEngine.removeCursorCalls (Session.syncEngine s) ++ [participantId] /\
  (Session.getParticipant participantId s = None ->
     s' = Session.mkSession (Session.id s) (Session.name s) (Session.hostId s)
            (Session.participants s)
            (SyncEngine.removeCursor participantId (Session.syncEngine s))
            (Session.keyVault s) (Session.budget s) (Session.isActive s)) /\
  Session.participants (Session.removeParticipant participantId s')
    = Session.participants s'.
Proof.
  unfold Session.getParticipant. simpl.
  split; [apply jsmap_get_delete_same|].
  split; [intros other Hne; apply jsmap_get_delete_other; congruence|].
  split; [reflexivity|].
  split; [|apply jsmap_delete_delete].
  intros Habs. unfold Session.removeParticipant. now rewrite jsmap_delete_absent.
Qed.

Lemma removeParticipant_removes_witness :
  Session.getParticipant "ghost" sample_session = None /\
  Session.removeParticipant "ghost" sample_session
    = Session.mkSession (Session.id sample_session) (Session.name sample_session)
        (Session.hostId sample_session) (Session.participants sample_session)
        (SyncEngine.removeCursor "ghost" (Session.syncEngine sample_session))
        (Session.keyVault sample_session) (Session.budget sample_session)
        (Session.isActive sample_session).
Proof.
  assert (Habs : Session.getParticipant "ghost" sample_session = None) by reflexivity.
  split; [exact Habs|].
  exact (proj1 (proj2 (proj2 (proj2 (removeParticipant_removes "ghost" sample_session))))
           Habs).
Defined.

(** *** Colours *)

Lemma addParticipant_fresh p s :
  Session.getParticipant (Participant.id p) s = None ->
  let s' := fst (Session.addParticipant p s) in
  JsMap.size (Session.participants s') = S (JsMap.size (Session.participants s)) /\
  (forall other, other <> Participant.id p ->
     Session.getParticipant other s' = Session.getParticipant other s).
Proof.
  unfold Session.getParticipant. intros Habs. simpl. split.
  - now apply jsmap_size_set_fresh.
  - intros other Hne. apply jsmap_get_set_other. congruence.
Qed.

Lemma addParticipants_cons p ps s :
  Session.addParticipants (p :: ps) s =
    (fst (Session.addParticipants ps (fst (Session.addParticipant p s))),
     snd (Session.addParticipant p s)
       :: snd (Session.addParticipants ps (fst (Session.addParticipant p s)))).
Proof.
  simpl. now destruct (Session.addParticipants ps _).
Qed.

Lemma addParticipants_colors ps : forall s j p',
  Forall (fun p => Participant.color p = EmptyString) ps ->
  NoDup (map Participant.id ps) ->
  Forall (fun p => Session.getParticipant (Participant.id p) s = None) ps ->
  snd (Session.addParticipants ps s) !! j = Some p' ->
  Participant.color p' = palette ((JsMap.size (Session.participants s) + j) mod 8).
Proof.
  induction ps as [|p ps IH]; intros s j p' Hcol Hnd Habs Hj; [discriminate|].
  inversion Hcol as [|? ? Hc Hcol']; subst.
  inversion Hnd as [|? ? Hnotin Hnd']; subst.
  inversion Habs as [|? ? Ha Habs']; subst.
  rewrite addParticipants_cons in Hj.
  destruct (addParticipant_fresh p s Ha) as [Hsize Hother].
  destruct j as [|j]; cbn [snd lookup list_lookup] in Hj.
  - injection Hj as <-. simpl. rewrite Hc. simpl.
    unfold Session.generateColor, palette. now rewrite Nat.add_0_r.
  - replace (JsMap.size (Session.participants s) + S j)
      with (S (JsMap.size (Session.participants s)) + j) by lia.
    rewrite <- Hsize. apply IH; auto.
    rewrite Forall_forall in Habs' |- *. intros q Hq.
    rewrite Hother; [now apply Habs'|].
    intros Heq. apply Hnotin. rewrite <- Heq.
    apply list_elem_of_In, in_map, list_elem_of_In, Hq.
Qed.

(** C6 (as amended): [addParticipant] keeps a colour that is not empty
    and replaces an empty one by the palette colour at index
    [count mod 8], where [count] is the number of participants in the map
    when the call is made; the record it stores is the argument with
    that colour, the argument itself being changed. A new session holds
    its host, with the palette colour 0. So when participants without a
    colour are added one after the other under ids that differ from one
    another and from those in the map, the [j]-th of them gets the colour
    at index [(count + j) mod 8]: counted from the host as number 0 in a
    new session, the N-th participant gets the colour [N mod 8]. An id
    added again does not grow the map and breaks that count. *)
Theorem addParticipant_assigns_color :
  (forall p s,
     let (s', p') := Session.addParticipant p s in
     Session.getParticipant (Participant.id p) s' = Some p' /\
     p' = Participant.with_color (Participant.color p') p /\
     (Participant.color p = EmptyString ->
      Participant.color p' = palette (JsMap.size (Session.participants s) mod 8)) /\
     (Participant.color p <> EmptyString -> p' = p) /\
     (Session.getParticipant (Participant.id p) s <> None ->
      JsMap.size (Session.participants s') = JsMap.size (Session.participants s))) /\
  (forall config keyVault w,
     let s := fst (Session.new config keyVault w) in
     JsMap.size (Session.participants s) = 1 /\
     exists host, Session.getParticipant (SessionConfig.hostId config) s = Some host /\
                  Participant.isHost host = true /\
                  Participant.color host = palette 0) /\
  (forall ps s j p',
     Forall (fun p => Participant.color p = EmptyString) ps ->
     NoDup (map Participant.id ps) ->
     Forall (fun p => Session.getParticipant (Participant.id p) s = None) ps ->
     snd (Session.addParticipants ps s) !! j = Some p' ->
     Participant.color p' = palette ((JsMap.size (Session.participants s) + j) mod 8)).
Proof.
  split; [|split].
  - intros p s. unfold Session.addParticipant, Session.getParticipant. simpl.
    split; [apply jsmap_get_set_same|]. split; [reflexivity|]. split; [|split].
    + intros ->. reflexivity.
    + destruct p as [i u c h j l]. simpl. destruct c; [congruence|reflexivity].
    + destruct (JsMap.get (Participant.id p) (Session.participants s)) as [p0|] eqn:E;
        [intros _|congruence].
      eapply jsmap_size_set_present, E.
  - intros config keyVault w. simpl. split; [reflexivity|].
    eexists. unfold Session.getParticipant. simpl. rewrite String.eqb_refl.
    repeat split.
  - intros ps s j p'. apply addParticipants_colors.
Qed.

Lemma addParticipant_assigns_color_witness :
  Forall (fun p => Participant.color p = EmptyString) [guest "a"; guest "b"] /\
  NoDup (map Participant.id [guest "a"; guest "b"]) /\
  Forall (fun p => Session.getParticipant (Participant.id p) sample_session = None)
    [guest "a"; guest "b"] /\
  snd (Session.addParticipants [guest "a"; guest "b"] sample_session) !! 1
    = Some (Participant.with_color "#45B7D1" (guest "b")) /\
  Participant.color (Participant.with_color "#45B7D1" (guest "b"))
    = palette ((JsMap.size (Session.participants sample_session) + 1) mod 8).
Proof.
  assert (H1 : Forall (fun p => Participant.color p = EmptyString) [guest "a"; guest "b"])
    by (repeat constructor).
  assert (H2 : NoDup (map Participant.id [guest "a"; guest "b"])).
  { simpl. apply NoDup_cons. split; [|apply NoDup_singleton].
    intros Hin. apply list_elem_of_In in Hin. destruct Hin as [Heq|[]]. discriminate. }
  assert (H3 : Forall (fun p => Session.getParticipant (Participant.id p) sample_session
                                = None) [guest "a"; guest "b"])
    by (repeat constructor).
  assert (H4 : snd (Session.addParticipants [guest "a"; guest "b"] sample_session) !! 1
               = Some (Participant.with_color "#45B7D1" (guest "b"))) by reflexivity.
  split; [exact H1|]. split; [exact H2|]. split; [exact H3|]. split; [exact H4|].
  exact (proj2 (proj2 addParticipant_assigns_color) _ _ _ _ H1 H2 H3 H4).
Defined.

(** C6 (as stated) fails: in a new session, add [a], [a] again and [b],
    none with a colour. They get the colours 1, 2 and 2. Whether the
    participants are counted from the host or from the first call, the
    colours [N mod 8] of successive participants would all differ. *)
Lemma addParticipant_color_not_by_rank :
  let added := snd (Session.addParticipants [guest "a"; guest "a"; guest "b"]
                      sample_session) in
  map Participant.color added = [palette 1; palette 2; palette 2] /\
  map Participant.color added <> map (fun N => palette (N mod 8)) [1; 2; 3] /\
  map Participant.color added <> map (fun N => palette (N mod 8)) [0; 1; 2].
Proof.
  simpl. split; [reflexivity|]. split; discriminate.
Qed.

(** ** The session manager *)

(** C7: [joinSession] with a session id that the manager does not know
    throws [Session <id> not found] and leaves the manager, and with it
    every session, as they were. With a known id it does not throw: it
    builds the participant from the stub with [isHost = false] and with
    two readings of the clock, taken at the call, as [joinedAt] and
    [lastSeen], hands it to [addParticipant] of the session found, and
    returns that session, which the manager holds under the same id; the
    other sessions are not touched. *)
Theorem joinSession_spec sessionId stub m w :
  (SessionManager.getSession sessionId m = None ->
   SessionManager.joinSession sessionId stub m w
     = ((Throw (ErrorObj ("Session " +:+ sessionId +:+ " not found")), m), w)) /\
  (forall session,
     SessionManager.getSession sessionId m = Some session ->
     let full :=
       Participant.mkParticipant (SessionManager.id stub) (SessionManager.username stub)
         (SessionManager.color stub) false (clock w (ticks w)) (clock w (S (ticks w))) in
     let session' := fst (Session.addParticipant full session) in
     exists m' w',
       SessionManager.joinSession sessionId stub m w = ((Normal session', m'), w') /\
       SessionManager.getSession sessionId m' = Some session' /\
       (forall other, other <> sessionId ->
          SessionManager.getSession other m' = SessionManager.getSession other m) /\
       ticks w' = S (S (ticks w)) /\
       exists p,
         Session.getParticipant (SessionManager.id stub) session' = Some p /\
         Participant.id p = SessionManager.id stub /\
         Participant.username p = SessionManager.username stub /\
         Participant.isHost p = false /\
         Participant.joinedAt p = clock w (ticks w) /\
         Participant.lastSeen p = clock w (S (ticks w))).
Proof.
  unfold SessionManager.getSession, SessionManager.joinSession. split.
  - intros Hget. now rewrite Hget.
  - intros session Hget. rewrite Hget.
    unfold io_bind, io_ret, Date_now. simpl.
    eexists _, _. split; [reflexivity|]. simpl.
    split; [apply jsmap_get_set_same|].
    split; [intros other Hne; apply jsmap_get_set_other; congruence|].
    split; [reflexivity|].
    eexists. unfold Session.getParticipant. simpl.
    split; [apply jsmap_get_set_same|]. repeat split.
Qed.

Lemma joinSession_spec_witness :
  SessionManager.getSession "unknown-id" sample_manager = None /\
  SessionManager.joinSession "unknown-id" sample_stub sample_manager sample_world
    = ((Throw (ErrorObj "Session unknown-id not found"), sample_manager), sample_world) /\
  SessionManager.getSession "cool-code-2" sample_manager = Some sample_session /\
  exists session' m' w',
    SessionManager.joinSession "cool-code-2" sample_stub sample_manager sample_world
      = ((Normal session', m'), w') /\
    SessionManager.getSession "cool-code-2" m' = Some session'.
Proof.
  assert (H1 : SessionManager.getSession "unknown-id" sample_manager = None)
    by reflexivity.
  assert (H2 : SessionManager.getSession "cool-code-2" sample_manager = Some sample_session)
    by reflexivity.
  split; [exact H1|]. split.
  { exact (proj1 (joinSession_spec "unknown-id" sample_stub sample_manager sample_world)
             H1). }
  split; [exact H2|].
  destruct (proj2 (joinSession_spec "cool-code-2" sample_stub sample_manager sample_world)
              sample_session H2) as (m' & w' & Hjoin & Hget & _).
  eauto.
Defined.

(** ** The budget ledger *)

Section BudgetLedger.
Context {K : Type} `{KeyVault K}.

(** C10: [getBudgetRemaining] and [recordAiUsage] of a session are those
    of the vault it refers to. Two sessions over the same vault get the
    same answers and leave the same vaults, whatever their [budget]
    fields hold; the value of that field, the default 5.00 of
    [createSession] included, has no influence, and every session that a
    manager creates refers to the vault of the manager. *)
Theorem budget_is_the_ledgers (s1 s2 : Session.t) (vs : Vaults K) (cost : JsNumber) :
  Session.keyVault s1 = Session.keyVault s2 ->
  Session.getBudgetRemaining s1 vs = Session.getBudgetRemaining s2 vs /\
  Session.recordAiUsage cost s1 vs = Session.recordAiUsage cost s2 vs /\
  Session.getBudgetRemaining s1 vs = kv_getBudgetRemaining (vs (Session.keyVault s1)) /\
  fst (Session.recordAiUsage cost s1 vs)
    = fst (kv_recordSpend cost (vs (Session.keyVault s1))) /\
  (forall b, Session.getBudgetRemaining (with_budget b s1) vs
             = Session.getBudgetRemaining s1 vs /\
             Session.recordAiUsage cost (with_budget b s1) vs
             = Session.recordAiUsage cost s1 vs) /\
  (forall config m w,
     let created := fst (fst (SessionManager.createSession config m w)) in
     Session.keyVault created = SessionManager.keyVault m /\
     Session.budget created
       = SessionManager.budget_or_default (SessionManager.budget config)).
Proof.
  intros Href. unfold Session.getBudgetRemaining, Session.recordAiUsage.
  split; [now rewrite Href|]. split; [now rewrite Href|]. split; [reflexivity|].
  split; [now destruct (kv_recordSpend cost (vs (Session.keyVault s1)))|].
  split; [intros b; split; reflexivity|].
  intros config m w. split; reflexivity.
Qed.

End BudgetLedger.

Lemma budget_is_the_ledgers_witness :
  Session.keyVault sample_session = Session.keyVault (with_budget (Num 100) sample_session) /\
  Session.getBudgetRemaining sample_session sample_vaults
    = Session.getBudgetRemaining (with_budget (Num 100) sample_session) sample_vaults /\
  Session.recordAiUsage (Num 2) sample_session sample_vaults
    = Session.recordAiUsage (Num 2) (with_budget (Num 100) sample_session) sample_vaults.
Proof.
  assert (Href : Session.keyVault sample_session
                 = Session.keyVault (with_budget (Num 100) sample_session))
    by reflexivity.
  split; [exact Href|].
  destruct (budget_is_the_ledgers sample_session (with_budget (Num 100) sample_session)
              sample_vaults (Num 2) Href) as (Hget & Hrec & _).
  split; [exact Hget|exact Hrec].
Defined.

(** ** Built-in agents *)

Lemma eqb_false_of_ne (a b : string) : a <> b -> String.eqb b a = false.
Proof. intros Hne. apply String.eqb_neq. congruence. Qed.

(** In a new hub the Architect is the first agent, provided that its
    identifier is not drawn again for one of the three agents registered
    after it. *)
Lemma new_hub_architect keyVault w :
  let u := uuidSource w in
  let n := uuids w in
  u n <> u (S n) -> u n <> u (S (S n)) -> u n <> u (S (S (S n))) ->
  exists a,
    AgentHub.findByName "The Architect" (fst (AgentHub.new keyVault w)) = Some (u n, a) /\
    Agent.variant a = Agent.ArchitectAgent.
Proof.
  intros u n H1 H2 H3.
  unfold AgentHub.new, AgentHub.initializeDefaultAgents, AgentHub.findByName.
  unfold Agent.new_ArchitectAgent, Agent.new_DevilsAdvocateAgent,
    Agent.new_HistorianAgent, Agent.new_ScribeAgent, Agent.new.
  unfold io_bind, io_ret, randomUUID. simpl.
  fold u n.
  rewrite (eqb_false_of_ne _ _ H1). simpl.
  rewrite (eqb_false_of_ne _ _ H2). simpl.
  rewrite (eqb_false_of_ne _ _ H3). simpl.
  eexists. split; reflexivity.
Qed.

(** C8: [execute] of each of the four built-in agents appends to the
    history of the agent one [user] message whose content is the input,
    then one [assistant] message whose content is the labeled echo of the
    input (the tag of the agent, a line feed, the input), leaves the rest
    of the agent as it was, and is fulfilled with that echo. So
    [askArchitect(q)] returns the Architect's labeled echo of [q] on every
    hub where the name resolves to an Architect, as it does on a new hub
    with its default agents. *)
Theorem builtin_execute_echoes :
  (forall a tag input w,
     tag_of (Agent.variant a) = Some tag ->
     exists a' w',
       Agent.execute input a w = ((Agent.Fulfilled (labeled_echo tag input), a'), w') /\
       Agent.history a' =
         Agent.history a ++
           [Agent.mkMessage Agent.user input (clock w (ticks w));
            Agent.mkMessage Agent.assistant (labeled_echo tag input)
              (clock w (S (ticks w)))] /\
       a' = Agent.with_history (Agent.history a') a /\
       ticks w' = S (S (ticks w))) /\
  (forall h a question w,
     AgentHub.getAgentByName "The Architect" h = Some a ->
     Agent.variant a = Agent.ArchitectAgent ->
     exists h' w',
       AgentHub.askArchitect question h w
         = ((Normal (labeled_echo "[Architect Analysis]" question), h'), w')) /\
  (forall keyVault w question,
     uuidSource w (uuids w) <> uuidSource w (S (uuids w)) ->
     uuidSource w (uuids w) <> uuidSource w (S (S (uuids w))) ->
     uuidSource w (uuids w) <> uuidSource w (S (S (S (uuids w)))) ->
     exists a h' w',
       AgentHub.getAgentByName "The Architect" (fst (AgentHub.new keyVault w)) = Some a /\
       Agent.variant a = Agent.ArchitectAgent /\
       AgentHub.askArchitect question (fst (AgentHub.new keyVault w))
         (snd (AgentHub.new keyVault w))
         = ((Normal (labeled_echo "[Architect Analysis]" question), h'), w')).
Proof.
  assert (Hask : forall h key a question w,
            AgentHub.findByName "The Architect" h = Some (key, a) ->
            Agent.variant a = Agent.ArchitectAgent ->
            exists h' w',
              AgentHub.askArchitect question h w
                = ((Normal (labeled_echo "[Architect Analysis]" question), h'), w')).
  { intros h key a question w Hfind Hv.
    unfold AgentHub.askArchitect, AgentHub.dispatchByName. rewrite Hfind.
    unfold io_bind, Agent.execute. rewrite Hv. simpl. eauto. }
  split; [|split].
  - intros a tag input w Htag. unfold Agent.execute.
    destruct a as [i n p m sp hist v]. simpl in *.
    destruct v; simpl in Htag; try discriminate; injection Htag as <-;
      eexists _, _; (split; [reflexivity|]);
      unfold Agent.addToHistory, Agent.with_history; simpl;
      rewrite <- ?app_assoc; repeat split.
  - intros h a question w Hname Hv. unfold AgentHub.getAgentByName in Hname.
    destruct (AgentHub.findByName "The Architect" h) as [[key a0]|] eqn:Hfind;
      [|discriminate].
    simpl in Hname. injection Hname as ->. eapply Hask; eauto.
  - intros keyVault w question H1 H2 H3.
    destruct (new_hub_architect keyVault w H1 H2 H3) as (a & Hfind & Hv).
    destruct (Hask _ _ _ question (snd (AgentHub.new keyVault w)) Hfind Hv)
      as (h' & w' & Hrun).
    exists a, h', w'. unfold AgentHub.getAgentByName. rewrite Hfind. auto.
Qed.

Lemma builtin_execute_echoes_witness :
  AgentHub.getAgentByName "The Architect" default_hub <> None /\
  uuidSource sample_world 0 <> uuidSource sample_world 1 /\
  exists h' w',
    AgentHub.askArchitect "why?" default_hub default_world
      = ((Normal (labeled_echo "[Architect Analysis]" "why?"), h'), w').
Proof.
  assert (H1 : uuidSource sample_world (uuids sample_world)
               <> uuidSource sample_world (S (uuids sample_world))) by discriminate.
  assert (H2 : uuidSource sample_world (uuids sample_world)
               <> uuidSource sample_world (S (S (uuids sample_world)))) by discriminate.
  assert (H3 : uuidSource sample_world (uuids sample_world)
               <> uuidSource sample_world (S (S (S (uuids sample_world))))) by discriminate.
  destruct (proj2 (proj2 builtin_execute_echoes) 0 sample_world "why?" H1 H2 H3)
    as (a & h' & w' & Hname & _ & Hask).
  split; [unfold default_hub; rewrite Hname; discriminate|].
  split; [exact H1|].
  exists h', w'. exact Hask.
Defined.

(** ** Calls in flight against one agent *)

Lemma executing_snoc agentId h (k : AgentHub.AgentTask) agents' tasks' :
  AgentHub.status k = AgentHub.running ->
  AgentHub.agentId k = agentId ->
  Runtime.executing agentId
    (AgentHub.mkHub agents' tasks' (AgentHub.objects h ++ [k]) (AgentHub.keyVault h))
  = Runtime.executing agentId h ++ [k].
Proof.
  intros Hst Hid. unfold Runtime.executing. simpl.
  rewrite List.filter_app. simpl.
  unfold Runtime.is_running. rewrite Hst, Hid, String.eqb_refl. reflexivity.
Qed.

Lemma begin_adds_running agentId input h w agent :
  AgentHub.getAgent agentId h = Some agent ->
  exists s h1 w1 k agent',
    AgentHub.submitTask_begin agentId input h w = ((Normal s, h1), w1) /\
    Agent.execute input agent (world_at_execute w) = ((AgentHub.awaited s, agent'), w1) /\
    AgentHub.getAgent agentId h1 = Some agent' /\
    AgentHub.deref (AgentHub.task s) h1 = Some k /\
    AgentHub.status k = AgentHub.running /\
    AgentHub.input k = input /\
    Runtime.executing agentId h1 = Runtime.executing agentId h ++ [k] /\
    length (Runtime.executing agentId h1) = S (length (Runtime.executing agentId h)).
Proof.
  intros Hget.
  destruct (Agent.execute input agent (world_at_execute w)) as [[outcome agent'] w1] eqn:Hexec.
  eexists _, _, _, _, _. split.
  { apply (submitTask_begin_registered _ _ _ _ _ _ _ _ Hget Hexec). }
  simpl. split; [reflexivity|].
  split; [unfold AgentHub.getAgent; simpl; apply jsmap_get_set_same|].
  unfold AgentHub.deref. simpl. rewrite lookup_last.
  split; [reflexivity|]. split; [reflexivity|]. split; [reflexivity|].
  rewrite executing_snoc by reflexivity.
  split; [reflexivity|]. rewrite length_app. simpl. lia.
Qed.

Lemma async_never_throws input a :
  Agent.is_async a = true -> Agent.throws_synchronously input a = false.
Proof.
  unfold Agent.is_async, Agent.throws_synchronously.
  destruct (Agent.variant a); intros H; congruence.
Qed.

Lemma execute_keeps_async input a w :
  Agent.is_async (snd (fst (Agent.execute input a w))) = Agent.is_async a.
Proof.
  unfold Agent.execute, Agent.is_async.
  destruct a as [i n p m sp hist v]. simpl.
  destruct v as [| | | |run|run]; simpl; try reflexivity;
    destruct (run input hist); reflexivity.
Qed.

Lemma thrower_is_rejected input a w :
  Agent.throws_synchronously input a = true ->
  exists reason, fst (fst (Agent.execute input a w)) = Agent.Rejected reason.
Proof.
  unfold Agent.throws_synchronously, Agent.execute.
  destruct (Agent.variant a) as [| | | |run|run]; try discriminate.
  destruct (run input (Agent.history a)) as [[thrown|settled] h]; simpl;
    [eauto|discriminate].
Qed.

Lemma call_suspends agentId input h w agent s h1 w1 :
  AgentHub.getAgent agentId h = Some agent ->
  Agent.throws_synchronously input agent = false ->
  AgentHub.submitTask_begin agentId input h w = ((Normal s, h1), w1) ->
  AgentHub.submitTask_call agentId input h w = ((Normal (Some s), h1), w1).
Proof.
  unfold AgentHub.getAgent, AgentHub.submitTask_call, io_bind, io_ret.
  intros -> -> ->. reflexivity.
Qed.

Lemma call_of_thrower agentId input h w agent :
  AgentHub.getAgent agentId h = Some agent ->
  Agent.throws_synchronously input agent = true ->
  AgentHub.submitTask_call agentId input h w =
    ((Normal None, snd (fst (AgentHub.submitTask agentId input h w))),
     snd (AgentHub.submitTask agentId input h w)).
Proof.
  intros Hget Hthrow.
  destruct (begin_adds_running agentId input h w agent Hget)
    as (s & h1 & w1 & k & agent' & Hbegin & _).
  unfold AgentHub.submitTask, AgentHub.submitTask_call, io_bind, io_ret.
  unfold AgentHub.getAgent in Hget. rewrite Hget, Hthrow, Hbegin.
  destruct (AgentHub.submitTask_resume s h1 w1) as [[r h2] w2]. reflexivity.
Qed.

Lemma submits_all_running agentId inputs : forall r,
  (exists agent, AgentHub.getAgent agentId (Runtime.hub r) = Some agent /\
                 Agent.is_async agent = true) ->
  let r' := Runtime.run (map (Runtime.Submit agentId) inputs) r in
  length (Runtime.executing agentId (Runtime.hub r'))
    = length (Runtime.executing agentId (Runtime.hub r)) + length inputs /\
  length (Runtime.inflight r') = length (Runtime.inflight r) + length inputs.
Proof.
  induction inputs as [|input inputs IH]; intros r (agent & Hget & Hasync).
  - simpl. split; lia.
  - destruct (begin_adds_running agentId input (Runtime.hub r) (Runtime.world r) agent Hget)
      as (s & h1 & w1 & k & agent' & Hbegin & Hexec & Hget' & _ & _ & _ & _ & Hlen).
    assert (Hstep : Runtime.step (Runtime.Submit agentId input) r
                    = Runtime.mkRuntime h1 w1 (Runtime.inflight r ++ [s])).
    { unfold Runtime.step.
      now rewrite (call_suspends _ _ _ _ _ _ _ _ Hget (async_never_throws _ _ Hasync) Hbegin). }
    assert (Hasync' : Agent.is_async agent' = true).
    { pose proof (execute_keeps_async input agent (world_at_execute (Runtime.world r))) as E.
      rewrite Hexec in E. simpl in E. congruence. }
    cbn [map length].
    change (Runtime.run (Runtime.Submit agentId input
                           :: map (Runtime.Submit agentId) inputs) r)
      with (Runtime.run (map (Runtime.Submit agentId) inputs)
              (Runtime.step (Runtime.Submit agentId input) r)).
    rewrite Hstep.
    specialize (IH (Runtime.mkRuntime h1 w1 (Runtime.inflight r ++ [s]))).
    cbn [Runtime.hub Runtime.inflight] in IH.
    destruct IH as [IH1 IH2]; [eauto|].
    cbv zeta. rewrite IH1, IH2, Hlen, length_app. simpl. split; lia.
Qed.

(** C9 (as amended): [submitTask] neither queues nor waits. A call for a
    registered agent creates its task, marks it [running] and calls the
    agent's [execute] at once, whatever tasks of that agent are running
    already. When [execute] returns a promise, as every [async] method
    does, the call is then suspended with its task [running]: the call
    adds one to the running tasks of the agent, and calls made one after
    the other before any of them is settled are all suspended and running
    at once, their agent invocations having been made in the order of the
    calls. When [execute] throws instead of returning a promise, the task
    is [failed] and has its end time before the call hands control back,
    and the running tasks of the agent are those before the call. *)
Theorem submitTask_does_not_queue agentId :
  (forall input h w agent,
     AgentHub.getAgent agentId h = Some agent ->
     Agent.throws_synchronously input agent = false ->
     exists s h1 w1 k agent',
       AgentHub.submitTask_call agentId input h w = ((Normal (Some s), h1), w1) /\
       Agent.execute input agent (world_at_execute w)
         = ((AgentHub.awaited s, agent'), w1) /\
       AgentHub.getAgent agentId h1 = Some agent' /\
       AgentHub.deref (AgentHub.task s) h1 = Some k /\
       AgentHub.status k = AgentHub.running /\
       AgentHub.input k = input /\
       Runtime.executing agentId h1 = Runtime.executing agentId h ++ [k]) /\
  (forall inputs r,
     (exists agent, AgentHub.getAgent agentId (Runtime.hub r) = Some agent /\
                    Agent.is_async agent = true) ->
     let r' := Runtime.run (map (Runtime.Submit agentId) inputs) r in
     length (Runtime.executing agentId (Runtime.hub r'))
       = length (Runtime.executing agentId (Runtime.hub r)) + length inputs /\
     length (Runtime.inflight r') = length (Runtime.inflight r) + length inputs) /\
  (forall input h w agent,
     AgentHub.getAgent agentId h = Some agent ->
     Agent.throws_synchronously input agent = true ->
     exists h1 w1 k,
       AgentHub.submitTask_call agentId input h w = ((Normal None, h1), w1) /\
       AgentHub.deref (length (AgentHub.objects h)) h1 = Some k /\
       AgentHub.input k = input /\
       AgentHub.status k = AgentHub.failed /\
       AgentHub.endTime k <> None /\
       Runtime.executing agentId h1 = Runtime.executing agentId h).
Proof.
  split; [|split].
  - intros input h w agent Hget Hsync.
    destruct (begin_adds_running agentId input h w agent Hget)
      as (s & h1 & w1 & k & agent' & H1 & H2 & H3 & H4 & H5 & H6 & H7 & _).
    exists s, h1, w1, k, agent'.
    rewrite (call_suspends _ _ _ _ _ _ _ _ Hget Hsync H1). auto 10.
  - intros inputs r. apply submits_all_running.
  - intros input h w agent Hget Hthrow.
    rewrite (call_of_thrower _ _ _ _ _ Hget Hthrow).
    destruct (thrower_is_rejected input agent (world_at_execute w) Hthrow) as [reason Hrej].
    destruct (Agent.execute input agent (world_at_execute w))
      as [[outcome agent'] w1] eqn:Hexec.
    simpl in Hrej. subst outcome.
    rewrite (submitTask_registered _ _ _ _ _ _ _ _ Hget Hexec).
    eexists _, _, _. split; [reflexivity|].
    unfold AgentHub.deref. cbn [fst snd AgentHub.objects]. rewrite lookup_last.
    split; [reflexivity|]. split; [reflexivity|]. split; [reflexivity|].
    split; [discriminate|].
    unfold Runtime.executing. cbn [AgentHub.objects].
    rewrite List.filter_app. simpl. apply app_nil_r.
Qed.

Lemma submitTask_does_not_queue_witness :
  (exists agent, AgentHub.getAgent "id-0" default_hub = Some agent /\
                 Agent.is_async agent = true) /\
  (let r' := Runtime.run (map (Runtime.Submit "id-0") ["x"; "y"; "z"])
               (Runtime.mkRuntime default_hub default_world []) in
   length (Runtime.executing "id-0" (Runtime.hub r')) = 3 /\
   length (Runtime.inflight r') = 3) /\
  AgentHub.getAgent "a1" (hub_of throwing_agent) = Some throwing_agent /\
  Agent.throws_synchronously "x" throwing_agent = true /\
  exists h1 w1 k,
    AgentHub.submitTask_call "a1" "x" (hub_of throwing_agent) sample_world
      = ((Normal None, h1), w1) /\
    AgentHub.deref 0 h1 = Some k /\
    AgentHub.status k = AgentHub.failed /\
    Runtime.executing "a1" h1 = [].
Proof.
  assert (Hreg : exists agent, AgentHub.getAgent "id-0" default_hub = Some agent /\
                               Agent.is_async agent = true).
  { eexists. split; reflexivity. }
  assert (Hget : AgentHub.getAgent "a1" (hub_of throwing_agent) = Some throwing_agent)
    by reflexivity.
  assert (Hthrow : Agent.throws_synchronously "x" throwing_agent = true) by reflexivity.
  split; [exact Hreg|]. split.
  { exact (proj1 (proj2 (submitTask_does_not_queue "id-0")) ["x"; "y"; "z"]
             (Runtime.mkRuntime default_hub default_world []) Hreg). }
  split; [exact Hget|]. split; [exact Hthrow|].
  destruct (proj2 (proj2 (submitTask_does_not_queue "a1")) "x" (hub_of throwing_agent)
              sample_world throwing_agent Hget Hthrow)
    as (h1 & w1 & k & Hcall & Hk & _ & Hst & _ & Hex).
  exists h1, w1, k. auto.
Defined.

(** C9 (as stated) fails: two calls for the Architect of a new hub, the
    second made before the first is settled, are both suspended with
    their tasks [running], and the agent has been invoked for both, its
    history holding the four messages of the two calls. *)
Lemma two_tasks_run_at_once :
  let r := Runtime.run [Runtime.Submit "id-0" "x"; Runtime.Submit "id-0" "y"]
             (Runtime.mkRuntime default_hub default_world []) in
  length (Runtime.inflight r) = 2 /\
  map AgentHub.input (Runtime.executing "id-0" (Runtime.hub r)) = ["x"; "y"] /\
  ~ length (Runtime.executing "id-0" (Runtime.hub r)) <= 1 /\
  (Agent.history <$> AgentHub.getAgent "id-0" (Runtime.hub r)) =
    Some [Agent.mkMessage Agent.user "x" 1;
          Agent.mkMessage Agent.assistant (labeled_echo "[Architect Analysis]" "x") 2;
          Agent.mkMessage Agent.user "y" 4;
          Agent.mkMessage Agent.assistant (labeled_echo "[Architect Analysis]" "y") 5].
Proof.
  vm_compute. split; [reflexivity|]. split; [reflexivity|]. split; [|reflexivity].
  intros Hle. inversion Hle as [|? Hle']. inversion Hle'.
Qed.

(** * Further properties of the registries *)

(** ** Vocabulary *)

(** The keys of a map, in iteration order. *)
Definition keys {V} (m : JsMap.t V) : list string := map fst m.

(** Every entry of the task registry refers to a task object, and that
    object carries the key of the entry as its [id]. *)
Definition registry_sound (h : AgentHub.t) : Prop :=
  forall i r, JsMap.get i (AgentHub.tasks h) = Some r ->
    exists k, AgentHub.deref r h = Some k /\ AgentHub.id k = i.

(** The four convenience methods of the hub. *)
Definition Dispatch : Type := string -> AgentHub.t -> IO (Completion string * AgentHub.t).

(** A convenience method records nothing: the task registry and the task
    objects are those before the call, and the agents are registered
    under the same ids in the same order. *)
Definition records_nothing (m : Dispatch) : Prop :=
  forall input h w,
    let h' := snd (fst (m input h w)) in
    AgentHub.tasks h' = AgentHub.tasks h /\
    AgentHub.objects h' = AgentHub.objects h /\
    keys (AgentHub.agents h') = keys (AgentHub.agents h).

(** A convenience method fails with [message], and changes nothing, when
    no registered agent has the name [name]. *)
Definition unavailable_without (name message : string) (m : Dispatch) : Prop :=
  forall input h w,
    AgentHub.getAgentByName name h = None ->
    m input h w = ((Throw (ErrorObj message), h), w).

(** The participants of a session are stored under their own ids. *)
Definition keyed_by_id (s : Session.t) : Prop :=
  forall i p, Session.getParticipant i s = Some p -> Participant.id p = i.

(** The sessions that the constructor and the public methods produce. *)
Inductive constructed : Session.t -> Prop :=
  | constructed_new config keyVault w :
      constructed (fst (Session.new config keyVault w))
  | constructed_after c s :
      constructed s -> constructed (Session.after c s).

(** A world whose random draws are all the same. *)
Definition stuck_world : World :=
  mkWorld (fun n => Z.of_nat n) (fun n => "id-" +:+ decimal n) (fun _ => 7) 0 0 0.

(** ** Maps, continued *)

Section JsMapMore.
Context {V : Type}.
Implicit Types (m : JsMap.t V) (k : string) (v : V).

Lemma keys_set_present k v v0 m : JsMap.get k m = Some v0 -> keys (JsMap.set k v m) = keys m.
Proof.
  unfold keys. induction m as [|[k' v'] rest IH]; simpl; [discriminate|].
  destruct (String.eqb k k') eqn:E; simpl.
  - apply String.eqb_eq in E. now subst.
  - intros H. now rewrite IH.
Qed.

Lemma keys_set_fresh k v m : JsMap.get k m = None -> keys (JsMap.set k v m) = keys m ++ [k].
Proof.
  unfold keys. induction m as [|[k' v'] rest IH]; simpl; [reflexivity|].
  destruct (String.eqb k k') eqn:E; [discriminate|].
  intros H. simpl. now rewrite IH.
Qed.

Lemma get_none_not_key k m : JsMap.get k m = None <-> ~ In k (keys m).
Proof.
  unfold keys. induction m as [|[k' v'] rest IH]; simpl; [tauto|].
  destruct (String.eqb k k') eqn:E.
  - apply String.eqb_eq in E. subst. split; [discriminate|tauto].
  - apply String.eqb_neq in E. rewrite IH. split; [intros H [H1|H2]; congruence|tauto].
Qed.

Lemma in_keys_delete k k' m : In k' (keys (JsMap.delete k m)) <-> k' <> k /\ In k' (keys m).
Proof.
  unfold keys. induction m as [|[k0 v0] rest IH]; simpl; [tauto|].
  destruct (String.eqb k k0) eqn:E.
  - apply String.eqb_eq in E. subst k0. rewrite IH. split; [tauto|].
    intros [Hne [Heq|Hin]]; [congruence|tauto].
  - apply String.eqb_neq in E. simpl. rewrite IH. split.
    + intros [Heq|[Hne Hin]]; [subst; split; [congruence|tauto]|tauto].
    + tauto.
Qed.

Lemma keys_nodup_set k v m : List.NoDup (keys m) -> List.NoDup (keys (JsMap.set k v m)).
Proof.
  intros Hnd. destruct (JsMap.get k m) as [v0|] eqn:E.
  - now rewrite (keys_set_present _ _ _ _ E).
  - rewrite (keys_set_fresh _ _ _ E).
    apply NoDup_ListNoDup, NoDup_app. apply NoDup_ListNoDup in Hnd.
    split; [exact Hnd|]. split; [|apply NoDup_singleton].
    intros x Hx Hx'. apply list_elem_of_In in Hx.
    apply list_elem_of_In in Hx'. destruct Hx' as [<-|[]].
    now apply get_none_not_key in E.
Qed.

Lemma keys_nodup_delete k m : List.NoDup (keys m) -> List.NoDup (keys (JsMap.delete k m)).
Proof.
  unfold keys. induction m as [|[k0 v0] rest IH]; simpl; intros Hnd; [constructor|].
  inversion Hnd as [|? ? Hnotin Hnd']; subst.
  destruct (String.eqb k k0); simpl; [now apply IH|].
  constructor; [|now apply IH].
  intros Hin. apply Hnotin. now apply (in_keys_delete k k0 rest) in Hin.
Qed.

Lemma value_of_get k v m : JsMap.get k m = Some v -> In v (JsMap.values m).
Proof.
  unfold JsMap.values. induction m as [|[k' v'] rest IH]; simpl; [discriminate|].
  destruct (String.eqb k k'); [intros [= ->]; now left|auto].
Qed.

End JsMapMore.

(** ** The agent registry *)

(** X1: an agent that was registered is found under its own id, and the
    other ids resolve as before; registering under an id that is taken
    replaces that agent where it stands, without another entry. An agent
    that was unregistered is found no more, the others are, and
    [submitTask] for its id throws [Agent <id> not found] and records
    nothing. *)
Theorem register_then_lookup (agent : Agent.t) (h : AgentHub.t) :
  AgentHub.getAgent (Agent.id agent) (AgentHub.registerAgent agent h) = Some agent /\
  (forall other, other <> Agent.id agent ->
     AgentHub.getAgent other (AgentHub.registerAgent agent h) = AgentHub.getAgent other h) /\
  (AgentHub.getAgent (Agent.id agent) h <> None ->
     keys (AgentHub.agents (AgentHub.registerAgent agent h)) = keys (AgentHub.agents h)) /\
  (AgentHub.getAgent (Agent.id agent) h = None ->
     keys (AgentHub.agents (AgentHub.registerAgent agent h))
       = keys (AgentHub.agents h) ++ [Agent.id agent]) /\
  (forall agentId,
     let h' := AgentHub.unregisterAgent agentId h in
     AgentHub.getAgent agentId h' = None /\
     (forall other, other <> agentId -> AgentHub.getAgent other h' = AgentHub.getAgent other h) /\
     forall input w,
       AgentHub.submitTask agentId input h' w
         = ((Throw (ErrorObj ("Agent " +:+ agentId +:+ " not found")), h'), w)).
Proof.
  unfold AgentHub.getAgent. simpl.
  split; [apply jsmap_get_set_same|].
  split; [intros other Hne; apply jsmap_get_set_other; congruence|].
  split.
  { destruct (JsMap.get (Agent.id agent) (AgentHub.agents h)) as [a0|] eqn:E;
      [intros _|congruence].
    eapply keys_set_present, E. }
  split; [apply keys_set_fresh|].
  intros agentId. split; [apply jsmap_get_delete_same|].
  split; [intros other Hne; apply jsmap_get_delete_other; congruence|].
  intros input w.
  unfold AgentHub.submitTask, AgentHub.submitTask_begin, io_bind, io_ret. simpl.
  now rewrite jsmap_get_delete_same.
Qed.

Lemma register_then_lookup_witness :
  AgentHub.getAgent "a1" default_hub = None /\
  AgentHub.getAgent "a1" (AgentHub.registerAgent echo_agent default_hub) <> None /\
  keys (AgentHub.agents (AgentHub.registerAgent echo_agent default_hub))
    = keys (AgentHub.agents default_hub) ++ ["a1"] /\
  keys (AgentHub.agents
          (AgentHub.registerAgent silent_agent
             (AgentHub.registerAgent echo_agent default_hub)))
    = keys (AgentHub.agents (AgentHub.registerAgent echo_agent default_hub)).
Proof.
  assert (H1 : AgentHub.getAgent (Agent.id echo_agent) default_hub = None) by reflexivity.
  assert (H2 : AgentHub.getAgent (Agent.id silent_agent)
                 (AgentHub.registerAgent echo_agent default_hub) <> None) by discriminate.
  split; [exact H1|]. split; [exact H2|]. split.
  - exact (proj1 (proj2 (proj2 (proj2 (register_then_lookup echo_agent default_hub)))) H1).
  - exact (proj1 (proj2 (proj2 (register_then_lookup silent_agent
                                  (AgentHub.registerAgent echo_agent default_hub)))) H2).
Defined.

(** X2: a new hub holds the four default agents, in the order
    Architect, Devil's Advocate, Historian, Scribe, each under the
    identifier drawn for it and with an empty history, and it holds no
    task; this when the four identifiers drawn differ from one another. *)
Theorem new_hub_default_agents keyVault w :
  let u := uuidSource w in
  let n := uuids w in
  NoDup [u n; u (S n); u (S (S n)); u (S (S (S n)))] ->
  let h := fst (AgentHub.new keyVault w) in
  keys (AgentHub.agents h) = [u n; u (S n); u (S (S n)); u (S (S (S n)))] /\
  map Agent.name (AgentHub.listAgents h)
    = ["The Architect"; "The Devil's Advocate"; "The Historian"; "The Scribe"] /\
  map Agent.variant (AgentHub.listAgents h)
    = [Agent.ArchitectAgent; Agent.DevilsAdvocateAgent; Agent.HistorianAgent;
       Agent.ScribeAgent] /\
  Forall (fun a => Agent.history a = []) (AgentHub.listAgents h) /\
  Forall (fun e => Agent.id (snd e) = fst e) (AgentHub.agents h) /\
  AgentHub.tasks h = JsMap.empty /\
  AgentHub.objects h = [] /\
  uuids (snd (AgentHub.new keyVault w)) = 4 + n.
Proof.
  intros u n Hnd h.
  apply NoDup_cons in Hnd as [H0 Hnd]. apply NoDup_cons in Hnd as [H1 Hnd].
  apply NoDup_cons in Hnd as [H2 _].
  repeat setoid_rewrite not_elem_of_cons in H0.
  repeat setoid_rewrite not_elem_of_cons in H1.
  repeat setoid_rewrite not_elem_of_cons in H2.
  destruct H0 as (H01 & H02 & H03 & _). destruct H1 as (H12 & H13 & _).
  destruct H2 as (H23 & _).
  subst h. unfold AgentHub.new, AgentHub.initializeDefaultAgents, AgentHub.listAgents.
  unfold Agent.new_ArchitectAgent, Agent.new_DevilsAdvocateAgent,
    Agent.new_HistorianAgent, Agent.new_ScribeAgent, Agent.new.
  unfold io_bind, io_ret, randomUUID, keys. simpl. fold u n.
  rewrite (eqb_false_of_ne _ _ H01). simpl.
  rewrite (eqb_false_of_ne _ _ H02), (eqb_false_of_ne _ _ H12). simpl.
  rewrite (eqb_false_of_ne _ _ H03), (eqb_false_of_ne _ _ H13),
    (eqb_false_of_ne _ _ H23). simpl.
  repeat split; repeat constructor.
Qed.

Lemma new_hub_default_agents_witness :
  NoDup [uuidSource sample_world 0; uuidSource sample_world 1;
         uuidSource sample_world 2; uuidSource sample_world 3] /\
  keys (AgentHub.agents default_hub) = ["id-0"; "id-1"; "id-2"; "id-3"] /\
  map Agent.name (AgentHub.listAgents default_hub)
    = ["The Architect"; "The Devil's Advocate"; "The Historian"; "The Scribe"].
Proof.
  assert (Hnd : NoDup [uuidSource sample_world (uuids sample_world);
                       uuidSource sample_world (S (uuids sample_world));
                       uuidSource sample_world (S (S (uuids sample_world)));
                       uuidSource sample_world (S (S (S (uuids sample_world))))]).
  { apply (bool_decide_unpack _). vm_compute. exact I. }
  split; [exact Hnd|].
  destruct (new_hub_default_agents 0 sample_world Hnd) as (Hk & Hn & _).
  split; [exact Hk|exact Hn].
Defined.

Lemma new_hub_agents keyVault w :
  let u := uuidSource w in
  let n := uuids w in
  NoDup [u n; u (S n); u (S (S n)); u (S (S (S n)))] ->
  exists a1 a2 a3 a4,
    AgentHub.agents (fst (AgentHub.new keyVault w))
      = [(u n, a1); (u (S n), a2); (u (S (S n)), a3); (u (S (S (S n))), a4)] /\
    Agent.name a1 = "The Architect" /\
    Agent.name a2 = "The Devil's Advocate" /\
    Agent.name a3 = "The Historian" /\
    Agent.name a4 = "The Scribe".
Proof.
  intros u n Hnd.
  apply NoDup_cons in Hnd as [H0 Hnd]. apply NoDup_cons in Hnd as [H1 Hnd].
  apply NoDup_cons in Hnd as [H2 _].
  repeat setoid_rewrite not_elem_of_cons in H0.
  repeat setoid_rewrite not_elem_of_cons in H1.
  repeat setoid_rewrite not_elem_of_cons in H2.
  destruct H0 as (H01 & H02 & H03 & _). destruct H1 as (H12 & H13 & _).
  destruct H2 as (H23 & _).
  unfold AgentHub.new, AgentHub.initializeDefaultAgents.
  unfold Agent.new_ArchitectAgent, Agent.new_DevilsAdvocateAgent,
    Agent.new_HistorianAgent, Agent.new_ScribeAgent, Agent.new.
  unfold io_bind, io_ret, randomUUID. simpl. fold u n.
  rewrite (eqb_false_of_ne _ _ H01). simpl.
  rewrite (eqb_false_of_ne _ _ H02), (eqb_false_of_ne _ _ H12). simpl.
  rewrite (eqb_false_of_ne _ _ H03), (eqb_false_of_ne _ _ H13),
    (eqb_false_of_ne _ _ H23). simpl.
  eexists _, _, _, _. repeat split.
Qed.

Lemma dispatch_unavailable name message :
  unavailable_without name message (AgentHub.dispatchByName name message).
Proof.
  intros input h w Hnone. unfold AgentHub.getAgentByName in Hnone.
  unfold AgentHub.dispatchByName.
  destruct (AgentHub.findByName name h) as [[key a]|]; [discriminate|reflexivity].
Qed.

(** X3: each of [askArchitect], [challengeCode], [getHistory] and
    [documentCode] throws its own [... agent not available] error, and
    changes neither the hub nor the world, when no registered agent has
    the name it looks for. This is what [askArchitect] does on a new hub
    once the Architect has been unregistered. *)
Theorem named_dispatch_unavailable :
  unavailable_without "The Architect" "Architect agent not available"
    AgentHub.askArchitect /\
  unavailable_without "The Devil's Advocate" "Devil's Advocate agent not available"
    AgentHub.challengeCode /\
  unavailable_without "The Historian" "Historian agent not available"
    AgentHub.getHistory /\
  unavailable_without "The Scribe" "Scribe agent not available"
    AgentHub.documentCode /\
  (forall keyVault w question w',
     NoDup [uuidSource w (uuids w); uuidSource w (S (uuids w));
            uuidSource w (S (S (uuids w))); uuidSource w (S (S (S (uuids w))))] ->
     let h := AgentHub.unregisterAgent (uuidSource w (uuids w))
                (fst (AgentHub.new keyVault w)) in
     AgentHub.askArchitect question h w'
       = ((Throw (ErrorObj "Architect agent not available"), h), w')).
Proof.
  split; [apply dispatch_unavailable|]. split; [apply dispatch_unavailable|].
  split; [apply dispatch_unavailable|]. split; [apply dispatch_unavailable|].
  intros keyVault w question w' Hnd h.
  apply (dispatch_unavailable "The Architect").
  unfold AgentHub.getAgentByName, AgentHub.findByName, h, AgentHub.unregisterAgent.
  destruct (new_hub_agents keyVault w Hnd) as (a1 & a2 & a3 & a4 & -> & N1 & N2 & N3 & N4).
  apply NoDup_cons in Hnd as [H0 _].
  repeat setoid_rewrite not_elem_of_cons in H0. destruct H0 as (H01 & H02 & H03 & _).
  simpl. rewrite String.eqb_refl.
  apply not_eq_sym, eqb_false_of_ne in H01, H02, H03. rewrite H01, H02, H03.
  simpl. rewrite N2, N3, N4. reflexivity.
Qed.

Lemma named_dispatch_unavailable_witness :
  AgentHub.getAgentByName "The Architect" (hub_of echo_agent) = None /\
  AgentHub.askArchitect "why?" (hub_of echo_agent) sample_world
    = ((Throw (ErrorObj "Architect agent not available"), hub_of echo_agent),
       sample_world) /\
  AgentHub.askArchitect "why?" (AgentHub.unregisterAgent "id-0" default_hub) default_world
    = ((Throw (ErrorObj "Architect agent not available"),
        AgentHub.unregisterAgent "id-0" default_hub), default_world).
Proof.
  assert (Hnone : AgentHub.getAgentByName "The Architect" (hub_of echo_agent) = None)
    by reflexivity.
  assert (Hnd : NoDup [uuidSource sample_world (uuids sample_world);
                       uuidSource sample_world (S (uuids sample_world));
                       uuidSource sample_world (S (S (uuids sample_world)));
                       uuidSource sample_world (S (S (S (uuids sample_world))))]).
  { apply (bool_decide_unpack _). vm_compute. exact I. }
  split; [exact Hnone|]. split.
  - exact (proj1 named_dispatch_unavailable "why?" (hub_of echo_agent) sample_world Hnone).
  - exact (proj2 (proj2 (proj2 (proj2 named_dispatch_unavailable))) 0 sample_world "why?"
             default_world Hnd).
Defined.

Lemma found_is_registered name h key a :
  AgentHub.findByName name h = Some (key, a) ->
  exists a0, JsMap.get key (AgentHub.agents h) = Some a0.
Proof.
  unfold AgentHub.findByName, JsMap.entries. intros Hfind.
  apply find_some in Hfind as [Hin _].
  destruct (JsMap.get key (AgentHub.agents h)) as [a0|] eqn:E; [eauto|].
  apply get_none_not_key in E. exfalso. apply E.
  unfold keys. change key with (fst (key, a)). now apply in_map.
Qed.

Lemma dispatch_records_nothing name message :
  records_nothing (AgentHub.dispatchByName name message).
Proof.
  intros input h w. unfold AgentHub.dispatchByName.
  destruct (AgentHub.findByName name h) as [[key a]|] eqn:Hfind; [|now simpl].
  destruct (found_is_registered _ _ _ _ Hfind) as [a0 Hget].
  unfold io_bind. destruct (Agent.execute input a w) as [[outcome a'] w1].
  destruct outcome; simpl; (split; [reflexivity|]); (split; [reflexivity|]);
    eapply keys_set_present, Hget.
Qed.

(** X4: the four convenience methods hand back the answer of the agent
    and record nothing: whatever the input and however the agent ends,
    the task registry and the task objects are the ones before the call,
    and the agents stay registered under the same ids in the same order. *)
Theorem named_dispatch_records_nothing :
  records_nothing AgentHub.askArchitect /\
  records_nothing AgentHub.challengeCode /\
  records_nothing AgentHub.getHistory /\
  records_nothing AgentHub.documentCode.
Proof. repeat split; apply dispatch_records_nothing. Qed.

(** ** The task registry *)

Lemma getTask_in_getTasksByAgent i h k :
  AgentHub.getTask i h = Some k -> k ∈ AgentHub.getTasksByAgent (AgentHub.agentId k) h.
Proof.
  unfold AgentHub.getTask, AgentHub.getTasksByAgent. intros Hget.
  destruct (JsMap.get i (AgentHub.tasks h)) as [r|] eqn:E; [|discriminate].
  apply list_elem_of_filter. split; [reflexivity|].
  apply list_elem_of_omap. exists r. split; [|exact Hget].
  apply list_elem_of_In. eapply value_of_get, E.
Qed.

(** X5: the task that [submitTask] returns for a registered agent is in
    the registry under its own id, the identifier drawn for the call:
    [getTask] with that id gives this very task, and [getTasksByAgent]
    for the agent lists it. Every task that [getTasksByAgent] lists for
    an agent id carries that agent id. *)
Theorem submitted_task_is_queryable agentId input h w agent :
  AgentHub.getAgent agentId h = Some agent ->
  exists r h' w' k,
    AgentHub.submitTask agentId input h w = ((Normal r, h'), w') /\
    AgentHub.deref r h' = Some k /\
    AgentHub.id k = uuidSource w (uuids w) /\
    AgentHub.getTask (AgentHub.id k) h' = Some k /\
    k ∈ AgentHub.getTasksByAgent agentId h' /\
    forall a k', k' ∈ AgentHub.getTasksByAgent a h' -> AgentHub.agentId k' = a.
Proof.
  intros Hget.
  destruct (Agent.execute input agent (world_at_execute w)) as [[outcome agent'] w1] eqn:Hexec.
  eexists _, _, _, _. split.
  { apply (submitTask_registered _ _ _ _ _ _ _ _ Hget Hexec). }
  assert (Hk : forall t0 t1,
             AgentHub.id (recorded (uuidSource w (uuids w)) agentId input t0 outcome t1)
               = uuidSource w (uuids w) /\
             AgentHub.agentId (recorded (uuidSource w (uuids w)) agentId input t0 outcome t1)
               = agentId)
    by (intros; destruct outcome; split; reflexivity).
  unfold AgentHub.deref. simpl. rewrite lookup_last.
  split; [reflexivity|]. split; [apply Hk|].
  match goal with |- AgentHub.getTask _ ?h' = _ /\ _ =>
    assert (Hq : AgentHub.getTask (uuidSource w (uuids w)) h'
                 = Some (recorded (uuidSource w (uuids w)) agentId input (clock w (ticks w))
                           outcome (clock w1 (ticks w1))))
  end.
  { unfold AgentHub.getTask, AgentHub.deref. simpl.
    rewrite jsmap_get_set_same. apply lookup_last. }
  split; [rewrite (proj1 (Hk _ _)); exact Hq|]. split.
  - apply getTask_in_getTasksByAgent in Hq. now rewrite (proj2 (Hk _ _)) in Hq.
  - intros a k' Hin. unfold AgentHub.getTasksByAgent in Hin.
    now apply list_elem_of_filter in Hin as [Ha _].
Qed.

Lemma submitted_task_is_queryable_witness :
  AgentHub.getAgent "a1" (hub_of failing_agent) = Some failing_agent /\
  exists r h' w' k,
    AgentHub.submitTask "a1" "hello" (hub_of failing_agent) sample_world
      = ((Normal r, h'), w') /\
    AgentHub.getTask "id-0" h' = Some k /\
    k ∈ AgentHub.getTasksByAgent "a1" h'.
Proof.
  assert (Hget : AgentHub.getAgent "a1" (hub_of failing_agent) = Some failing_agent)
    by reflexivity.
  split; [exact Hget|].
  destruct (submitted_task_is_queryable "a1" "hello" (hub_of failing_agent) sample_world
              failing_agent Hget) as (r & h' & w' & k & Hs & _ & Hid & Hq & Hin & _).
  exists r, h', w', k. rewrite Hid in Hq. auto.
Defined.

(** X6: [submitTask] never removes or alters the record of another task:
    whatever could be read with [getTask] before the call, under an id
    other than the one drawn for the new task, is read unchanged after
    it, whether the call throws, completes or fails. *)
Theorem submitTask_keeps_earlier_tasks agentId input h w other k :
  other <> uuidSource w (uuids w) ->
  AgentHub.getTask other h = Some k ->
  AgentHub.getTask other (snd (fst (AgentHub.submitTask agentId input h w))) = Some k.
Proof.
  intros Hne Hk.
  destruct (AgentHub.getAgent agentId h) as [agent|] eqn:Hget.
  - destruct (Agent.execute input agent (world_at_execute w))
      as [[outcome agent'] w1] eqn:Hexec.
    rewrite (submitTask_registered _ _ _ _ _ _ _ _ Hget Hexec).
    unfold AgentHub.getTask, AgentHub.deref in *. simpl.
    rewrite jsmap_get_set_other by congruence.
    destruct (JsMap.get other (AgentHub.tasks h)) as [r|]; [|discriminate].
    now apply lookup_app_l_Some.
  - unfold AgentHub.submitTask, AgentHub.submitTask_begin, io_bind, io_ret.
    unfold AgentHub.getAgent in Hget. rewrite Hget. exact Hk.
Qed.

Lemma submitTask_keeps_earlier_tasks_witness :
  let h1 := snd (fst (AgentHub.submitTask "a1" "one" (hub_of failing_agent) sample_world)) in
  let w1 := snd (AgentHub.submitTask "a1" "one" (hub_of failing_agent) sample_world) in
  "id-0" <> uuidSource w1 (uuids w1) /\
  AgentHub.getTask "id-0" h1
    = Some (AgentHub.mkTask "id-0" "a1" "one" AgentHub.failed None (Some "provider down")
              (Some 0%Z) (Some 1%Z)) /\
  AgentHub.getTask "id-0" (snd (fst (AgentHub.submitTask "a1" "two" h1 w1)))
    = Some (AgentHub.mkTask "id-0" "a1" "one" AgentHub.failed None (Some "provider down")
              (Some 0%Z) (Some 1%Z)).
Proof.
  intros h1 w1.
  assert (Hne : "id-0" <> uuidSource w1 (uuids w1)) by discriminate.
  assert (Hk : AgentHub.getTask "id-0" h1
               = Some (AgentHub.mkTask "id-0" "a1" "one" AgentHub.failed None
                         (Some "provider down") (Some 0%Z) (Some 1%Z))) by reflexivity.
  split; [exact Hne|]. split; [exact Hk|].
  exact (submitTask_keeps_earlier_tasks "a1" "two" h1 w1 "id-0" _ Hne Hk).
Defined.

Lemma resume_shape s h w :
  AgentHub.submitTask_resume s h w =
    ((AgentHub.task s,
      AgentHub.mkHub (AgentHub.agents h) (AgentHub.tasks h)
        (alter (fun k =>
                  AgentHub.with_endTime (clock w (ticks w))
                    match AgentHub.awaited s with
                    | Agent.Fulfilled value =>
                        AgentHub.with_status AgentHub.completed (AgentHub.with_result value k)
                    | Agent.Rejected reason =>
                        AgentHub.with_error (AgentHub.error_text reason)
                          (AgentHub.with_status AgentHub.failed k)
                    end)
           (AgentHub.task s) (AgentHub.objects h))
        (AgentHub.keyVault h)),
     snd (Date_now w)).
Proof.
  unfold AgentHub.submitTask_resume, io_bind, io_ret, AgentHub.update, Date_now. simpl.
  destruct (AgentHub.awaited s); simpl; rewrite !list_alter_alter_eq; reflexivity.
Qed.

(** X7: settling a suspended call writes into its own task object and
    nowhere else: every other task object, the task registry and the
    agents are left as they were. In its own task it keeps [id],
    [agentId], [input] and [startTime], sets [endTime] to the reading of
    the clock taken then, and sets [result] and [completed], or [error]
    and [failed], according to the way the promise was settled. *)
Theorem resume_touches_own_task_only s h w :
  let h' := snd (fst (AgentHub.submitTask_resume s h w)) in
  AgentHub.agents h' = AgentHub.agents h /\
  AgentHub.tasks h' = AgentHub.tasks h /\
  length (AgentHub.objects h') = length (AgentHub.objects h) /\
  (forall r, r <> AgentHub.task s -> AgentHub.deref r h' = AgentHub.deref r h) /\
  (forall k, AgentHub.deref (AgentHub.task s) h = Some k ->
     exists k',
       AgentHub.deref (AgentHub.task s) h' = Some k' /\
       AgentHub.id k' = AgentHub.id k /\
       AgentHub.agentId k' = AgentHub.agentId k /\
       AgentHub.input k' = AgentHub.input k /\
       AgentHub.startTime k' = AgentHub.startTime k /\
       AgentHub.endTime k' = Some (clock w (ticks w)) /\
       match AgentHub.awaited s with
       | Agent.Fulfilled value =>
           AgentHub.status k' = AgentHub.completed /\
           AgentHub.result k' = Some value /\
           AgentHub.error k' = AgentHub.error k
       | Agent.Rejected reason =>
           AgentHub.status k' = AgentHub.failed /\
           AgentHub.error k' = Some (AgentHub.error_text reason) /\
           AgentHub.result k' = AgentHub.result k
       end).
Proof.
  rewrite resume_shape. unfold AgentHub.deref.
  cbn [snd fst AgentHub.objects AgentHub.agents AgentHub.tasks].
  split; [reflexivity|]. split; [reflexivity|]. split; [apply length_alter|].
  split; [intros r Hne; apply list_lookup_alter_ne; congruence|].
  intros k Hk. rewrite list_lookup_alter_eq.
  eexists. split; [unfold AgentHub.TaskRef in *; rewrite Hk; reflexivity|].
  destruct (AgentHub.awaited s); simpl; repeat split.
Qed.

Lemma resume_touches_own_task_only_witness :
  let b := AgentHub.submitTask_begin "id-0" "x" default_hub default_world in
  let b2 := AgentHub.submitTask_begin "id-0" "y" (snd (fst b)) (snd b) in
  let h' := snd (fst (AgentHub.submitTask_resume
                        (AgentHub.mkSuspended 1 (Agent.Fulfilled "done"))
                        (snd (fst b2)) (snd b2))) in
  0 <> 1 /\
  AgentHub.deref 0 h' = AgentHub.deref 0 (snd (fst b2)) /\
  (AgentHub.status <$> AgentHub.deref 0 h') = Some AgentHub.running.
Proof.
  intros b b2 h'.
  assert (Hne : 0 <> AgentHub.task (AgentHub.mkSuspended 1 (Agent.Fulfilled "done")))
    by discriminate.
  split; [exact Hne|].
  pose proof (proj1 (proj2 (proj2 (proj2
                (resume_touches_own_task_only
                   (AgentHub.mkSuspended 1 (Agent.Fulfilled "done"))
                   (snd (fst b2)) (snd b2))))) 0 Hne) as Hframe.
  split; [exact Hframe|].
  fold h' in Hframe. rewrite Hframe. reflexivity.
Defined.

Lemma begin_keeps_sound agentId input h w :
  registry_sound h ->
  registry_sound (snd (fst (AgentHub.submitTask_begin agentId input h w))).
Proof.
  intros Hs.
  destruct (AgentHub.getAgent agentId h) as [agent|] eqn:Hget.
  - destruct (Agent.execute input agent (world_at_execute w))
      as [[outcome agent'] w1] eqn:Hexec.
    rewrite (submitTask_begin_registered _ _ _ _ _ _ _ _ Hget Hexec).
    intros i r. unfold AgentHub.deref. simpl.
    destruct (String.eqb_spec (uuidSource w (uuids w)) i) as [<-|Hne].
    + rewrite jsmap_get_set_same. intros [= <-].
      rewrite lookup_last. eexists. split; reflexivity.
    + rewrite jsmap_get_set_other by exact Hne. intros Hi.
      destruct (Hs i r Hi) as (k & Hk & Hid).
      exists k. split; [|exact Hid]. now apply lookup_app_l_Some.
  - unfold AgentHub.submitTask_begin, io_ret.
    unfold AgentHub.getAgent in Hget. now rewrite Hget.
Qed.

Lemma resume_keeps_sound s h w :
  registry_sound h ->
  registry_sound (snd (fst (AgentHub.submitTask_resume s h w))).
Proof.
  intros Hs i r. rewrite resume_shape. unfold AgentHub.deref.
  cbn [snd fst AgentHub.objects AgentHub.agents AgentHub.tasks]. intros Hi.
  destruct (Hs i r Hi) as (k & Hk & Hid). unfold AgentHub.deref in Hk.
  unfold AgentHub.TaskRef in *. rewrite list_lookup_alter. case_decide as Hd.
  - subst r. rewrite Hk. simpl. eexists. split; [reflexivity|].
    destruct (AgentHub.awaited s); exact Hid.
  - exists k. split; assumption.
Qed.

Lemma call_keeps_sound agentId input h w :
  registry_sound h ->
  registry_sound (snd (fst (AgentHub.submitTask_call agentId input h w))).
Proof.
  intros Hs. unfold AgentHub.submitTask_call, io_bind, io_ret.
  pose proof (begin_keeps_sound agentId input h w Hs) as Hb.
  destruct (AgentHub.submitTask_begin agentId input h w) as [[[s|e] h1] w1];
    cbn [fst snd] in Hb; [|exact Hb].
  destruct (match JsMap.get agentId (AgentHub.agents h) with
            | Some agent => Agent.throws_synchronously input agent
            | None => false
            end); [|exact Hb].
  pose proof (resume_keeps_sound s h1 w1 Hb) as Hr.
  destruct (AgentHub.submitTask_resume s h1 w1) as [[x h2] w2]. exact Hr.
Qed.

Lemma step_keeps_sound e r :
  registry_sound (Runtime.hub r) -> registry_sound (Runtime.hub (Runtime.step e r)).
Proof.
  intros Hs. destruct e as [agentId input|i]; unfold Runtime.step.
  - pose proof (call_keeps_sound agentId input _ (Runtime.world r) Hs) as Hb.
    destruct (AgentHub.submitTask_call agentId input (Runtime.hub r) (Runtime.world r))
      as [[[[s|]|e] h] w]; exact Hb.
  - destruct (Runtime.inflight r !! i) as [s|]; [|exact Hs].
    pose proof (resume_keeps_sound s _ (Runtime.world r) Hs) as Hr.
    destruct (AgentHub.submitTask_resume s (Runtime.hub r) (Runtime.world r))
      as [[x h] w]. exact Hr.
Qed.

(** X8: the task registry never dangles. In a new hub, and from then on
    through any sequence of [submitTask] calls and of settlements of
    those in flight, in any order, and through [registerAgent] and
    [unregisterAgent], every id in the registry refers to a task object,
    and that object carries the id: [getTask(id)] finds a task whose
    [id] is the one asked for. *)
Theorem registry_stays_sound :
  (forall keyVault w, registry_sound (fst (AgentHub.new keyVault w))) /\
  (forall agent h, registry_sound h -> registry_sound (AgentHub.registerAgent agent h)) /\
  (forall agentId h, registry_sound h -> registry_sound (AgentHub.unregisterAgent agentId h)) /\
  (forall es r, registry_sound (Runtime.hub r) ->
     registry_sound (Runtime.hub (Runtime.run es r))) /\
  (forall h i, registry_sound h ->
     match AgentHub.getTask i h with
     | Some k => AgentHub.id k = i
     | None => JsMap.get i (AgentHub.tasks h) = None
     end).
Proof.
  split; [|split; [|split; [|split]]].
  - intros keyVault w i r. unfold AgentHub.new, AgentHub.initializeDefaultAgents.
    unfold io_bind, io_ret. simpl.
    repeat match goal with |- context [Agent.new ?v ?c ?w0] =>
      destruct (Agent.new v c w0) end.
    simpl. discriminate.
  - intros agent h Hs. exact Hs.
  - intros agentId h Hs. exact Hs.
  - intros es. unfold Runtime.run.
    induction es as [|e es IH]; intros r Hs; simpl; [exact Hs|].
    apply IH, step_keeps_sound, Hs.
  - intros h i Hs. unfold AgentHub.getTask.
    destruct (JsMap.get i (AgentHub.tasks h)) as [r|] eqn:E; [|reflexivity].
    destruct (Hs i r E) as (k & -> & Hid). exact Hid.
Qed.

Lemma registry_stays_sound_witness :
  registry_sound default_hub /\
  registry_sound
    (Runtime.hub
       (Runtime.run [Runtime.Submit "id-0" "x"; Runtime.Submit "id-1" "y"; Runtime.Settle 1;
                     Runtime.Submit "nobody" "z"; Runtime.Settle 0]
          (Runtime.mkRuntime default_hub default_world []))).
Proof.
  assert (Hs : registry_sound (Runtime.hub (Runtime.mkRuntime default_hub default_world [])))
    by (intros i r; discriminate).
  split; [exact Hs|].
  exact (proj1 (proj2 (proj2 (proj2 registry_stays_sound))) _ _ Hs).
Defined.

(** ** Agents and their history *)

Lemma append_assoc (a b c : string) : (a +:+ b) +:+ c = a +:+ (b +:+ c).
Proof.
  induction a as [|x a IH]; [reflexivity|].
  change (String x ((a +:+ b) +:+ c) = String x (a +:+ (b +:+ c))). now rewrite IH.
Qed.

Lemma concat_snoc (sep : string) (l : list string) (x : string) :
  l <> [] -> String.concat sep (l ++ [x]) = String.concat sep l +:+ sep +:+ x.
Proof.
  induction l as [|y l IH]; [congruence|]. intros _.
  destruct l as [|z l]; [reflexivity|].
  change (String.concat sep ((y :: z :: l) ++ [x]))
    with (y +:+ sep +:+ String.concat sep ((z :: l) ++ [x])).
  rewrite IH by discriminate.
  change (String.concat sep (y :: z :: l)) with (y +:+ sep +:+ String.concat sep (z :: l)).
  now rewrite !append_assoc.
Qed.

(** The line of a message in the context. *)
Definition context_line (m : Agent.AgentMessage) : string :=
  Agent.role_name (Agent.role m) +:+ ": " +:+ Agent.content m.

(** X9: [getContext] renders the history in insertion order, one line
    [role: content] for each message, the lines joined by line feeds with
    none at the end. It is the empty string for an empty history, as
    after [clearHistory]; the first message added gives its line alone,
    and each further message appends a line feed and its line. After a
    first [execute] of a built-in agent the context is the [user] line of
    the input followed by the [assistant] line of the labeled echo. *)
Theorem getContext_renders_history (a : Agent.t) (m : Agent.AgentMessage) :
  Agent.getContext (Agent.clearHistory a) = EmptyString /\
  (Agent.history a = [] -> Agent.getContext a = EmptyString) /\
  (Agent.history a = [] ->
     Agent.getContext (Agent.addToHistory m a) = context_line m) /\
  (Agent.history a <> [] ->
     Agent.getContext (Agent.addToHistory m a)
       = Agent.getContext a +:+ LF +:+ context_line m) /\
  (forall tag input w,
     tag_of (Agent.variant a) = Some tag ->
     Agent.history a = [] ->
     Agent.getContext (snd (fst (Agent.execute input a w)))
       = "user: " +:+ input +:+ LF +:+ "assistant: " +:+ labeled_echo tag input).
Proof.
  unfold Agent.getContext. split; [reflexivity|].
  split; [intros ->; reflexivity|].
  split; [simpl; intros ->; reflexivity|]. split.
  - intros Hne. simpl. rewrite map_app. simpl.
    apply concat_snoc. destruct (Agent.history a); [congruence|discriminate].
  - intros tag input w Htag Hnil. unfold Agent.execute.
    destruct a as [i n p md sp hist v]. simpl in *. subst hist.
    destruct v; simpl in Htag; try discriminate; injection Htag as <-; reflexivity.
Qed.

Lemma getContext_renders_history_witness :
  let a := Agent.clearHistory echo_agent in
  let u := Agent.mkMessage Agent.user "hi" 0 in
  let s := Agent.mkMessage Agent.system "be brief" 1 in
  Agent.history a = [] /\
  Agent.history (Agent.addToHistory u a) <> [] /\
  Agent.getContext (Agent.addToHistory u a) = "user: hi" /\
  Agent.getContext (Agent.addToHistory s (Agent.addToHistory u a))
    = "user: hi" +:+ LF +:+ "system: be brief".
Proof.
  intros a u s.
  assert (H1 : Agent.history a = []) by reflexivity.
  assert (H2 : Agent.history (Agent.addToHistory u a) <> []) by discriminate.
  split; [exact H1|]. split; [exact H2|]. split.
  - exact (proj1 (proj2 (proj2 (getContext_renders_history a u))) H1).
  - exact (proj1 (proj2 (proj2 (proj2
             (getContext_renders_history (Agent.addToHistory u a) s)))) H2).
Defined.

(** X10: [submitTask] for a registered agent changes, among the agents,
    the one it ran and no other: that agent is as its [execute] left it,
    every agent registered under another id is as before, and the ids
    and their order are unchanged. *)
Theorem submitTask_changes_target_agent_only agentId input h w agent :
  AgentHub.getAgent agentId h = Some agent ->
  let h' := snd (fst (AgentHub.submitTask agentId input h w)) in
  AgentHub.getAgent agentId h'
    = Some (snd (fst (Agent.execute input agent (world_at_execute w)))) /\
  (forall other, other <> agentId -> AgentHub.getAgent other h' = AgentHub.getAgent other h) /\
  keys (AgentHub.agents h') = keys (AgentHub.agents h) /\
  AgentHub.keyVault h' = AgentHub.keyVault h.
Proof.
  intros Hget.
  destruct (Agent.execute input agent (world_at_execute w)) as [[outcome agent'] w1] eqn:Hexec.
  rewrite (submitTask_registered _ _ _ _ _ _ _ _ Hget Hexec).
  unfold AgentHub.getAgent in *. simpl.
  split; [apply jsmap_get_set_same|].
  split; [intros other Hne; apply jsmap_get_set_other; congruence|].
  split; [eapply keys_set_present, Hget|reflexivity].
Qed.

Lemma submitTask_changes_target_agent_only_witness :
  let h' := snd (fst (AgentHub.submitTask "id-0" "x" default_hub default_world)) in
  AgentHub.getAgent "id-0" default_hub <> None /\
  AgentHub.getAgent "id-1" h' = AgentHub.getAgent "id-1" default_hub /\
  keys (AgentHub.agents h') = keys (AgentHub.agents default_hub).
Proof.
  intros h'.
  destruct (AgentHub.getAgent "id-0" default_hub) as [agent|] eqn:Hget;
    [|vm_compute in Hget; discriminate].
  split; [discriminate|].
  destruct (submitTask_changes_target_agent_only "id-0" "x" default_hub default_world
              agent Hget) as (_ & Hother & Hkeys & _).
  split; [apply Hother; discriminate|exact Hkeys].
Defined.

(** ** Sessions, continued *)

(** X11: no method of a session writes [id], [name], [hostId], the
    reference to the vault or [budget]: after any sequence of calls they
    are what the constructor stored, so the invite link of a session and
    the answers of [isHost] never change. [isHost] is true for the host
    id alone, whether or not the host is still among the participants. *)
Theorem session_identity_is_fixed (calls : list Session.Call) (s : Session.t) :
  let s' := calls_after calls s in
  Session.id s' = Session.id s /\
  Session.name s' = Session.name s /\
  Session.hostId s' = Session.hostId s /\
  Session.keyVault s' = Session.keyVault s /\
  Session.budget s' = Session.budget s /\
  Session.getInviteLink s' = Session.getInviteLink s /\
  (forall userId, Session.isHost userId s' = Session.isHost userId s) /\
  (forall userId, Session.isHost userId s' = true <-> userId = Session.hostId s).
Proof.
  assert (H : Session.id (calls_after calls s) = Session.id s /\
              Session.name (calls_after calls s) = Session.name s /\
              Session.hostId (calls_after calls s) = Session.hostId s /\
              Session.keyVault (calls_after calls s) = Session.keyVault s /\
              Session.budget (calls_after calls s) = Session.budget s).
  { revert s. induction calls as [|c calls IH]; intros s; [now simpl|].
    simpl. destruct (IH (Session.after c s)) as (H1 & H2 & H3 & H4 & H5).
    unfold calls_after in *. rewrite H1, H2, H3, H4, H5.
    destruct c; simpl; auto. }
  destruct H as (H1 & H2 & H3 & H4 & H5). simpl.
  unfold Session.getInviteLink, Session.isHost. rewrite H1, H3.
  repeat split; auto.
  - intros Heq. apply String.eqb_eq in Heq. congruence.
  - intros ->. apply String.eqb_refl.
Qed.

Lemma get_in_entries {V} (k : string) (v : V) (m : JsMap.t V) :
  JsMap.get k m = Some v -> In (k, v) m.
Proof.
  induction m as [|[k' v'] rest IH]; simpl; [discriminate|].
  destruct (String.eqb_spec k k') as [<-|Hne].
  - intros [= ->]. now left.
  - auto.
Qed.

Lemma forall_entries_set {V} (P : string * V -> Prop) k v (m : JsMap.t V) :
  List.Forall P m -> P (k, v) -> List.Forall P (JsMap.set k v m).
Proof.
  intros Hm Hkv. induction m as [|[k' v'] rest IH]; simpl.
  - now constructor.
  - inversion Hm; subst. destruct (String.eqb k k'); constructor; auto.
Qed.

Lemma forall_entries_delete {V} (P : string * V -> Prop) k (m : JsMap.t V) :
  List.Forall P m -> List.Forall P (JsMap.delete k m).
Proof.
  intros Hm. induction m as [|[k' v'] rest IH]; simpl; [constructor|].
  inversion Hm; subst. destruct (String.eqb k k'); [auto|constructor; auto].
Qed.

(** What the methods of a session keep true of its participant map. *)
Definition participants_ok (s : Session.t) : Prop :=
  List.Forall (fun e => Participant.id (snd e) = fst e) (Session.participants s) /\
  List.NoDup (keys (Session.participants s)).

Lemma after_keeps_participants_ok c s :
  participants_ok s -> participants_ok (Session.after c s).
Proof.
  intros [Hid Hnd]. destruct c; simpl; try (split; assumption).
  - split; simpl.
    + apply forall_entries_set; [exact Hid|reflexivity].
    + apply keys_nodup_set, Hnd.
  - split; simpl.
    + apply forall_entries_delete, Hid.
    + apply keys_nodup_delete, Hnd.
  - split; simpl; constructor.
Qed.

Lemma constructed_participants_ok s : constructed s -> participants_ok s.
Proof.
  induction 1 as [config keyVault w|c s Hs IH].
  - split; simpl; repeat constructor. intros [].
  - now apply after_keeps_participants_ok.
Qed.

(** X12: in a session made by the constructor and changed by its methods
    only, every participant is stored under its own id and no two
    participants have the same id: [getParticipant(i)] gives a record
    whose [id] is [i], [getParticipants] lists each id once, and its
    length is the participant count. *)
Theorem participants_are_keyed_by_id (s : Session.t) :
  constructed s ->
  keyed_by_id s /\
  List.NoDup (map Participant.id (Session.getParticipants s)) /\
  length (Session.getParticipants s) = JsMap.size (Session.participants s).
Proof.
  intros Hc. destruct (constructed_participants_ok s Hc) as [Hid Hnd].
  split; [|split].
  - intros i p Hget. unfold Session.getParticipant in Hget.
    apply get_in_entries in Hget.
    rewrite List.Forall_forall in Hid. exact (Hid _ Hget).
  - unfold Session.getParticipants, JsMap.values. rewrite map_map.
    replace (map (fun e => Participant.id (snd e)) (Session.participants s))
      with (keys (Session.participants s)); [exact Hnd|].
    unfold keys. apply map_ext_in. intros e He.
    rewrite List.Forall_forall in Hid. symmetry. exact (Hid _ He).
  - unfold Session.getParticipants, JsMap.values, JsMap.size. apply length_map.
Qed.

Lemma participants_are_keyed_by_id_witness :
  let s := calls_after [Session.AddParticipant (guest "a"); Session.AddParticipant (guest "a");
                        Session.RemoveParticipant "host-1"; Session.AddParticipant (guest "b")]
             sample_session in
  constructed s /\
  keyed_by_id s /\
  map Participant.id (Session.getParticipants s) = ["a"; "b"].
Proof.
  intros s.
  assert (Hc : constructed s).
  { unfold s, calls_after. cbn [fold_left]. do 4 apply constructed_after.
    unfold sample_session. apply constructed_new. }
  split; [exact Hc|].
  split; [exact (proj1 (participants_are_keyed_by_id s Hc))|reflexivity].
Defined.

(** ** The session manager, continued *)

(** X13: [joinSession] does not look whether the id of the stub is
    taken. When the session already has a participant with that id, the
    record of that participant is replaced by the new one, with
    [isHost = false] and new timestamps, and the participant count stays
    the same. Joining under the id of the host therefore leaves the
    session without the record that carried [isHost = true], while
    [isHost] of the session still answers true for that id. *)
Theorem joinSession_overwrites sessionId stub m w session old :
  SessionManager.getSession sessionId m = Some session ->
  Session.getParticipant (SessionManager.id stub) session = Some old ->
  exists session' m' w' p,
    SessionManager.joinSession sessionId stub m w = ((Normal session', m'), w') /\
    SessionManager.getSession sessionId m' = Some session' /\
    Session.getParticipant (SessionManager.id stub) session' = Some p /\
    Participant.username p = SessionManager.username stub /\
    Participant.isHost p = false /\
    Participant.joinedAt p = clock w (ticks w) /\
    Participant.lastSeen p = clock w (S (ticks w)) /\
    keys (Session.participants session') = keys (Session.participants session) /\
    JsMap.size (Session.participants session') = JsMap.size (Session.participants session) /\
    (SessionManager.id stub = Session.hostId session ->
     Session.isHost (SessionManager.id stub) session' = true).
Proof.
  unfold SessionManager.getSession, SessionManager.joinSession, Session.getParticipant.
  intros Hget Hold. rewrite Hget. unfold io_bind, io_ret, Date_now. simpl.
  eexists _, _, _, _. split; [reflexivity|]. simpl.
  split; [apply jsmap_get_set_same|].
  split; [apply jsmap_get_set_same|].
  split; [reflexivity|]. split; [reflexivity|]. split; [reflexivity|].
  split; [reflexivity|].
  split; [eapply keys_set_present, Hold|].
  split; [eapply jsmap_size_set_present, Hold|].
  intros ->. apply String.eqb_refl.
Qed.

Lemma joinSession_overwrites_witness :
  let stub := SessionManager.mkStub "host-1" "Mallory" EmptyString in
  SessionManager.getSession "cool-code-2" sample_manager = Some sample_session /\
  (Participant.isHost <$> Session.getParticipant "host-1" sample_session) = Some true /\
  exists session' m' w' p,
    SessionManager.joinSession "cool-code-2" stub sample_manager sample_world
      = ((Normal session', m'), w') /\
    Session.getParticipant "host-1" session' = Some p /\
    Participant.username p = "Mallory" /\
    Participant.isHost p = false /\
    Session.isHost "host-1" session' = true.
Proof.
  intros stub.
  assert (H1 : SessionManager.getSession "cool-code-2" sample_manager = Some sample_session)
    by reflexivity.
  destruct (Session.getParticipant (SessionManager.id stub) sample_session) as [old|] eqn:H2;
    [|vm_compute in H2; discriminate].
  split; [exact H1|]. split; [reflexivity|].
  destruct (joinSession_overwrites "cool-code-2" stub sample_manager sample_world
              sample_session old H1 H2)
    as (session' & m' & w' & p & Hj & _ & Hp & Hu & Hh & _ & _ & _ & _ & Hhost).
  exists session', m', w', p. repeat split; auto.
Defined.

Lemma generateSessionId_unfold (w : World) :
  Session.generateSessionId w =
    (nth (entropy w (draws w) mod length Session.adjectives) Session.adjectives EmptyString
       +:+ "-" +:+
     nth (entropy w (S (draws w)) mod length Session.nouns) Session.nouns EmptyString
       +:+ "-" +:+ decimal (entropy w (S (S (draws w))) mod 1000),
     mkWorld (clock w) (uuidSource w) (entropy w) (ticks w) (uuids w) (S (S (S (draws w))))).
Proof. reflexivity. Qed.

(** X14: a session id has the form [adjective-noun-number], with the
    adjective and the noun taken from the two lists of five words each
    and a number below 1000 written in decimal, so that no more than
    5 * 5 * 1000 ids exist. Generating one takes three random draws and
    reads neither the clock nor an identifier; the id of a new session is
    the one generated from the world in which it is constructed. *)
Theorem session_id_shape (w : World) :
  let sid := fst (Session.generateSessionId w) in
  let w' := snd (Session.generateSessionId w) in
  (exists adj noun num,
     In adj Session.adjectives /\ In noun Session.nouns /\ num < 1000 /\
     sid = adj +:+ "-" +:+ noun +:+ "-" +:+ decimal num) /\
  length Session.adjectives = 5 /\ length Session.nouns = 5 /\
  draws w' = 3 + draws w /\ ticks w' = ticks w /\ uuids w' = uuids w /\
  forall config keyVault, Session.id (fst (Session.new config keyVault w)) = sid.
Proof.
  rewrite generateSessionId_unfold. cbn [fst snd].
  split; [|repeat split].
  eexists _, _, _. split; [|split; [|split; [|reflexivity]]].
  - apply nth_In. apply Nat.mod_upper_bound. discriminate.
  - apply nth_In. apply Nat.mod_upper_bound. discriminate.
  - apply Nat.mod_upper_bound. discriminate.
Qed.

(** X15: [createSession] returns a session that the manager then finds
    under the id of the session, and leaves the sessions under other ids
    alone. The session is active, has the name and the host of the
    configuration and the vault of the manager, and holds the host as its
    only participant. Its budget is the configured one when that is a
    number other than zero, negative ones included, and 5 when the
    budget is absent, zero or NaN. [allowGuests] has no effect at all. *)
Theorem createSession_registers config m w :
  let session := fst (fst (SessionManager.createSession config m w)) in
  let m' := snd (fst (SessionManager.createSession config m w)) in
  SessionManager.getSession (Session.id session) m' = Some session /\
  (forall other, other <> Session.id session ->
     SessionManager.getSession other m' = SessionManager.getSession other m) /\
  Session.name session = SessionManager.name config /\
  Session.hostId session = SessionManager.hostId config /\
  Session.keyVault session = SessionManager.keyVault m /\
  Session.isActive session = true /\
  map Participant.id (Session.getParticipants session) = [SessionManager.hostId config] /\
  map Participant.isHost (Session.getParticipants session) = [true] /\
  (SessionManager.budget config = None \/ SessionManager.budget config = Some NaN \/
   (exists q, SessionManager.budget config = Some (Num q) /\ (q == 0)%Q) ->
   Session.budget session = Num 5) /\
  (forall q, SessionManager.budget config = Some (Num q) -> ~ (q == 0)%Q ->
     Session.budget session = Num q) /\
  (forall allowGuests,
     SessionManager.createSession
       (SessionManager.mkCreate (SessionManager.name config) (SessionManager.hostId config)
          allowGuests (SessionManager.budget config)) m w
     = SessionManager.createSession config m w).
Proof.
  unfold SessionManager.createSession, SessionManager.getSession, io_bind, io_ret.
  cbn -[SessionManager.budget_or_default decimal JsMap.get JsMap.set String.append nth
        Nat.modulo].
  split; [apply jsmap_get_set_same|].
  split; [intros other Hne; apply jsmap_get_set_other; congruence|].
  repeat split.
  - intros [->|[->|(q & -> & Hq)]]; try reflexivity.
    simpl. apply Qeq_bool_iff in Hq. now rewrite Hq.
  - intros q -> Hq. simpl.
    destruct (Qeq_bool q 0) eqn:E; [|reflexivity].
    apply Qeq_bool_iff in E. contradiction.
Qed.

Lemma createSession_registers_witness :
  let create b := fst (fst (SessionManager.createSession
                              (SessionManager.mkCreate "demo" "host-1" false b)
                              (SessionManager.new 0) sample_world)) in
  Session.budget (create None) = Num 5 /\
  Session.budget (create (Some (Num 0))) = Num 5 /\
  Session.budget (create (Some (Num (-3)))) = Num (-3) /\
  Session.budget (create (Some (Num 12))) = Num 12.
Proof.
  intros create.
  assert (H0 : (0 == 0)%Q) by reflexivity.
  assert (H3 : ~ (-3 == 0)%Q) by discriminate.
  assert (H12 : ~ (12 == 0)%Q) by discriminate.
  pose (thm b := createSession_registers (SessionManager.mkCreate "demo" "host-1" false b)
                   (SessionManager.new 0) sample_world).
  split; [|split; [|split]].
  - destruct (thm None) as (_ & _ & _ & _ & _ & _ & _ & _ & Hd & _).
    apply Hd. now left.
  - destruct (thm (Some (Num 0))) as (_ & _ & _ & _ & _ & _ & _ & _ & Hd & _).
    apply Hd. right. right. exists 0%Q. split; [reflexivity|exact H0].
  - destruct (thm (Some (Num (-3)))) as (_ & _ & _ & _ & _ & _ & _ & _ & _ & Hq & _).
    apply Hq; [reflexivity|exact H3].
  - destruct (thm (Some (Num 12))) as (_ & _ & _ & _ & _ & _ & _ & _ & _ & Hq & _).
    apply Hq; [reflexivity|exact H12].
Defined.

(** X16: [createSession] does not check that the generated id is free.
    When the manager already holds a session under the id generated for
    the new one, the new session takes its place: the registry has as
    many sessions as before and the earlier session can no longer be
    reached through the manager. With a free id the registry grows by
    one, the new session last. *)
Theorem createSession_same_id_replaces config m w :
  let session := fst (fst (SessionManager.createSession config m w)) in
  let m' := snd (fst (SessionManager.createSession config m w)) in
  Session.id session = fst (Session.generateSessionId w) /\
  (SessionManager.getSession (Session.id session) m <> None ->
     keys (SessionManager.sessions m') = keys (SessionManager.sessions m) /\
     length (SessionManager.listSessions m') = length (SessionManager.listSessions m) /\
     SessionManager.getSession (Session.id session) m' = Some session) /\
  (SessionManager.getSession (Session.id session) m = None ->
     keys (SessionManager.sessions m')
       = keys (SessionManager.sessions m) ++ [Session.id session] /\
     length (SessionManager.listSessions m') = S (length (SessionManager.listSessions m))).
Proof.
  unfold SessionManager.createSession, SessionManager.getSession,
    SessionManager.listSessions, JsMap.values, io_bind, io_ret.
  destruct (Session.new _ (SessionManager.keyVault m) w) as [session w'] eqn:Hnew.
  cbn [fst snd SessionManager.sessions]. rewrite !length_map.
  split.
  { replace session with (fst (Session.new
       (SessionConfig.mkConfig (SessionManager.name config) (SessionManager.hostId config)
          (SessionManager.budget_or_default (SessionManager.budget config))
          (SessionManager.allowGuests config)) (SessionManager.keyVault m) w))
      by now rewrite Hnew.
    reflexivity. }
  split.
  - destruct (JsMap.get (Session.id session) (SessionManager.sessions m)) as [old|] eqn:E;
      [intros _|congruence].
    split; [eapply keys_set_present, E|].
    split; [eapply (jsmap_size_set_present _ _ _ _ E)|apply jsmap_get_set_same].
  - intros E. split; [apply keys_set_fresh, E|].
    apply (jsmap_size_set_fresh _ _ _ E).
Qed.

Lemma createSession_same_id_replaces_witness :
  let c1 := SessionManager.createSession
              (SessionManager.mkCreate "first" "alice" true None)
              (SessionManager.new 0) stuck_world in
  let m1 := snd (fst c1) in
  let w1 := mkWorld (clock (snd c1)) (uuidSource (snd c1)) (entropy (snd c1))
              (ticks (snd c1)) (uuids (snd c1)) 0 in
  let c2 := SessionManager.createSession
              (SessionManager.mkCreate "second" "bob" true None) m1 w1 in
  SessionManager.getSession (Session.id (fst (fst c2))) m1 <> None /\
  (Session.hostId <$> SessionManager.getSession "awesome-hack-7" m1) = Some "alice" /\
  (Session.hostId <$> SessionManager.getSession "awesome-hack-7" (snd (fst c2)))
    = Some "bob" /\
  length (SessionManager.listSessions (snd (fst c2))) = 1.
Proof.
  intros c1 m1 w1 c2.
  assert (H : SessionManager.getSession (Session.id (fst (fst c2))) m1 <> None)
    by (vm_compute; discriminate).
  split; [exact H|]. split; [reflexivity|]. split; [reflexivity|].
  destruct (proj1 (proj2 (createSession_same_id_replaces
                            (SessionManager.mkCreate "second" "bob" true None) m1 w1)) H)
    as (_ & Hlen & _).
  fold c2 in Hlen. rewrite Hlen. reflexivity.
Defined.

(** X17: [endSession] with an unknown id does nothing and throws
    nothing. With a known id it ends the session, which is then inactive
    and without participants for whoever still holds it, and removes it
    from the registry: the manager finds it no more, the other sessions
    are untouched, and a [joinSession] with that id afterwards throws
    [Session <id> not found], while [leaveSession] and a second
    [endSession] do nothing. *)
Theorem endSession_forgets_session sessionId m :
  (SessionManager.getSession sessionId m = None ->
   SessionManager.endSession sessionId m = (None, m)) /\
  (forall session,
     SessionManager.getSession sessionId m = Some session ->
     fst (SessionManager.endSession sessionId m) = Some (Session.end_ session) /\
     Session.isActive (Session.end_ session) = false /\
     Session.getParticipants (Session.end_ session) = []) /\
  (let m' := snd (SessionManager.endSession sessionId m) in
   SessionManager.getSession sessionId m' = None /\
   (forall other, other <> sessionId ->
      SessionManager.getSession other m' = SessionManager.getSession other m) /\
   (forall stub w,
      SessionManager.joinSession sessionId stub m' w
        = ((Throw (ErrorObj ("Session " +:+ sessionId +:+ " not found")), m'), w)) /\
   (forall participantId, SessionManager.leaveSession sessionId participantId m' = m') /\
   SessionManager.endSession sessionId m' = (None, m')).
Proof.
  unfold SessionManager.getSession, SessionManager.endSession.
  split; [intros ->; reflexivity|].
  split; [intros session ->; repeat split|].
  assert (Hgone : JsMap.get sessionId
                    (SessionManager.sessions
                       (snd match JsMap.get sessionId (SessionManager.sessions m) with
                            | Some session =>
                                (Some (Session.end_ session),
                                 SessionManager.mkManager
                                   (JsMap.delete sessionId (SessionManager.sessions m))
                                   (SessionManager.keyVault m))
                            | None => (None, m)
                            end)) = None).
  { destruct (JsMap.get sessionId (SessionManager.sessions m)) eqn:E; simpl;
      [apply jsmap_get_delete_same|exact E]. }
  cbv zeta. split; [exact Hgone|]. split.
  - intros other Hne.
    destruct (JsMap.get sessionId (SessionManager.sessions m)); simpl; [|reflexivity].
    apply jsmap_get_delete_other. congruence.
  - unfold SessionManager.joinSession, SessionManager.leaveSession, io_ret.
    rewrite Hgone. repeat split.
Qed.

Lemma endSession_forgets_session_witness :
  SessionManager.getSession "cool-code-2" sample_manager = Some sample_session /\
  SessionManager.getSession "no-such-id" sample_manager = None /\
  SessionManager.endSession "no-such-id" sample_manager = (None, sample_manager) /\
  fst (SessionManager.endSession "cool-code-2" sample_manager)
    = Some (Session.end_ sample_session) /\
  SessionManager.listSessions (snd (SessionManager.endSession "cool-code-2" sample_manager))
    = [].
Proof.
  assert (H1 : SessionManager.getSession "cool-code-2" sample_manager = Some sample_session)
    by reflexivity.
  assert (H2 : SessionManager.getSession "no-such-id" sample_manager = None) by reflexivity.
  split; [exact H1|]. split; [exact H2|]. split; [|split].
  - exact (proj1 (endSession_forgets_session "no-such-id" sample_manager) H2).
  - exact (proj1 (proj1 (proj2 (endSession_forgets_session "cool-code-2" sample_manager))
                    sample_session H1)).
  - reflexivity.
Defined.

(** X18: [leaveSession] with an unknown session id does nothing and
    throws nothing. With a known id it removes the participant from that
    session, tells its synchronization engine to drop the cursor, and
    leaves the other sessions and the other participants alone. It never
    ends or forgets the session: the session stays registered and active
    even when the host leaves, in which case [isHost] still answers true
    for the host id although no participant has it any more. *)
Theorem leaveSession_removes_participant sessionId participantId m :
  (SessionManager.getSession sessionId m = None ->
   SessionManager.leaveSession sessionId participantId m = m) /\
  (forall session,
     SessionManager.getSession sessionId m = Some session ->
     let m' := SessionManager.leaveSession sessionId participantId m in
     exists session',
       SessionManager.getSession sessionId m' = Some session' /\
       session' = Session.removeParticipant participantId session /\
       Session.getParticipant participantId session' = None /\
       (forall other, other <> participantId ->
          Session.getParticipant other session' = Session.getParticipant other session) /\
       SyncEngine.removeCursorCalls (Session.syncEngine session')
         = SyncEngine.removeCursorCalls (Session.syncEngine session) ++ [participantId] /\
       Session.isActive session' = Session.isActive session /\
       Session.isHost (Session.hostId session) session' = true /\
       keys (SessionManager.sessions m') = keys (SessionManager.sessions m) /\
       (forall other, other <> sessionId ->
          SessionManager.getSession other m' = SessionManager.getSession other m)).
Proof.
  unfold SessionManager.getSession, SessionManager.leaveSession.
  split; [intros ->; reflexivity|].
  intros session Hget. rewrite Hget. simpl.
  eexists. split; [apply jsmap_get_set_same|]. split; [reflexivity|].
  unfold Session.getParticipant, Session.isHost. simpl.
  split; [apply jsmap_get_delete_same|].
  split; [intros other Hne; apply jsmap_get_delete_other; congruence|].
  split; [reflexivity|]. split; [reflexivity|]. split; [apply String.eqb_refl|].
  split; [eapply keys_set_present, Hget|].
  intros other Hne. apply jsmap_get_set_other. congruence.
Qed.

Lemma leaveSession_removes_participant_witness :
  let m' := SessionManager.leaveSession "cool-code-2" "host-1" sample_manager in
  SessionManager.getSession "cool-code-2" sample_manager = Some sample_session /\
  SessionManager.getSession "no-such-id" sample_manager = None /\
  SessionManager.leaveSession "no-such-id" "host-1" sample_manager = sample_manager /\
  exists session',
    SessionManager.getSession "cool-code-2" m' = Some session' /\
    Session.getParticipant "host-1" session' = None /\
    Session.isHost "host-1" session' = true.
Proof.
  intros m'.
  assert (H1 : SessionManager.getSession "cool-code-2" sample_manager = Some sample_session)
    by reflexivity.
  assert (H2 : SessionManager.getSession "no-such-id" sample_manager = None) by reflexivity.
  split; [exact H1|]. split; [exact H2|]. split.
  - exact (proj1 (leaveSession_removes_participant "no-such-id" "host-1" sample_manager) H2).
  - destruct (proj2 (leaveSession_removes_participant "cool-code-2" "host-1" sample_manager)
                sample_session H1)
      as (session' & Hget & _ & Hgone & _ & _ & _ & Hhost & _).
    exists session'. repeat split; assumption.
Defined.

(** ** The life of a task *)

(** The task objects that suspended calls hold. *)
Definition suspended_refs (rt : Runtime.t) : list nat :=
  AgentHub.task <$> Runtime.inflight rt.

(** A task is [running], without an end time, exactly while the call
    that made it is suspended; any other task is [completed] or [failed]
    and has its end time. No two suspended calls hold the same task. *)
Definition lifecycle_ok (rt : Runtime.t) : Prop :=
  NoDup (suspended_refs rt) /\
  (forall r, r ∈ suspended_refs rt -> r < length (AgentHub.objects (Runtime.hub rt))) /\
  forall r k, AgentHub.objects (Runtime.hub rt) !! r = Some k ->
    (r ∈ suspended_refs rt ->
       AgentHub.status k = AgentHub.running /\ AgentHub.endTime k = None) /\
    (r ∉ suspended_refs rt ->
       (AgentHub.status k = AgentHub.completed \/ AgentHub.status k = AgentHub.failed) /\
       AgentHub.endTime k <> None).

Lemma submit_keeps_lifecycle agentId input rt :
  lifecycle_ok rt -> lifecycle_ok (Runtime.step (Runtime.Submit agentId input) rt).
Proof.
  intros (Hnd & Hlt & Hobj). unfold Runtime.step.
  destruct (AgentHub.getAgent agentId (Runtime.hub rt)) as [agent|] eqn:Hget.
  - destruct (Agent.execute input agent (world_at_execute (Runtime.world rt)))
      as [[outcome agent'] w1] eqn:Hexec.
    set (n := length (AgentHub.objects (Runtime.hub rt))) in *.
    assert (Hfresh : n ∉ suspended_refs rt).
    { intros Hin. apply Hlt in Hin. lia. }
    destruct (Agent.throws_synchronously input agent) eqn:Hthrow.
    + rewrite (call_of_thrower _ _ _ _ _ Hget Hthrow).
      rewrite (submitTask_registered _ _ _ _ _ _ _ _ Hget Hexec).
      destruct (thrower_is_rejected input agent (world_at_execute (Runtime.world rt)) Hthrow)
        as [reason Hrej].
      rewrite Hexec in Hrej. simpl in Hrej. subst outcome.
      unfold lifecycle_ok, suspended_refs in *.
      cbn [fst snd Runtime.hub Runtime.inflight AgentHub.objects].
      split; [exact Hnd|]. split.
      * intros r Hr. rewrite length_app. apply Hlt in Hr. lia.
      * intros r k Hk. destruct (decide (r < n)) as [Hr|Hr].
        -- rewrite lookup_app_l in Hk by exact Hr. exact (Hobj r k Hk).
        -- assert (r = n) as ->.
           { apply lookup_lt_Some in Hk. rewrite length_app in Hk. simpl in Hk.
             fold n in Hk. lia. }
           unfold n in Hk. rewrite lookup_last in Hk. injection Hk as <-. split.
           ++ intros Hin. contradiction.
           ++ intros _. simpl. split; [now right|discriminate].
    + rewrite (call_suspends _ _ _ _ _ _ _ _ Hget Hthrow
                 (submitTask_begin_registered _ _ _ _ _ _ _ _ Hget Hexec)).
      unfold lifecycle_ok, suspended_refs in *.
      cbn [Runtime.hub Runtime.inflight AgentHub.objects].
      rewrite fmap_app. cbn [fmap list_fmap AgentHub.task]. fold n.
      split; [|split].
      * apply NoDup_app. split; [exact Hnd|]. split; [|apply NoDup_singleton].
        intros x Hx Hx'. apply list_elem_of_singleton in Hx'. subst x. now apply Hfresh.
      * intros r Hr. rewrite length_app. simpl. apply elem_of_app in Hr as [Hr|Hr].
        -- apply Hlt in Hr. lia.
        -- apply list_elem_of_singleton in Hr. subst r. fold n. lia.
      * intros r k Hk. destruct (decide (r < n)) as [Hr|Hr].
        -- rewrite lookup_app_l in Hk by exact Hr.
           destruct (Hobj r k Hk) as [Hin Hout]. split.
           ++ intros Hr'. apply elem_of_app in Hr' as [Hr'|Hr']; [now apply Hin|].
              apply list_elem_of_singleton in Hr'. lia.
           ++ intros Hr'. apply Hout. intros Hr''. apply Hr', elem_of_app. now left.
        -- assert (r = n) as ->.
           { apply lookup_lt_Some in Hk. rewrite length_app in Hk. simpl in Hk.
             fold n in Hk. lia. }
           unfold n in Hk. rewrite lookup_last in Hk. injection Hk as <-. split.
           ++ intros _. split; reflexivity.
           ++ intros Hr'. exfalso. apply Hr', elem_of_app. right.
              now apply list_elem_of_singleton.
  - unfold AgentHub.submitTask_call, AgentHub.submitTask_begin, io_bind, io_ret.
    unfold AgentHub.getAgent in Hget. rewrite Hget.
    split; [exact Hnd|]. split; [exact Hlt|exact Hobj].
Qed.

Lemma settle_keeps_lifecycle i rt :
  lifecycle_ok rt -> lifecycle_ok (Runtime.step (Runtime.Settle i) rt).
Proof.
  intros Hok. unfold Runtime.step.
  destruct (Runtime.inflight rt !! i) as [s|] eqn:Hi; [|exact Hok].
  destruct Hok as (Hnd & Hlt & Hobj).
  rewrite resume_shape. unfold lifecycle_ok, suspended_refs in *.
  cbn [Runtime.hub Runtime.inflight AgentHub.objects].
  rewrite delete_take_drop.
  rewrite <- (take_drop_middle _ _ _ Hi) in Hnd, Hlt, Hobj.
  set (l1 := take i (Runtime.inflight rt)) in *.
  set (l2 := drop (S i) (Runtime.inflight rt)) in *.
  rewrite fmap_app in *. rewrite fmap_cons in Hnd, Hlt, Hobj.
  apply NoDup_app in Hnd as (Hnd1 & Hsep & Hnd2).
  apply NoDup_cons in Hnd2 as (Hs2 & Hnd2).
  assert (Hs1 : AgentHub.task s ∉ AgentHub.task <$> l1).
  { intros Hin. apply (Hsep _ Hin). now left. }
  assert (Hmem : forall r, r <> AgentHub.task s ->
            (r ∈ (AgentHub.task <$> l1) ++ (AgentHub.task <$> l2) <->
             r ∈ (AgentHub.task <$> l1) ++ AgentHub.task s :: (AgentHub.task <$> l2))).
  { intros r Hne. rewrite !elem_of_app, elem_of_cons. tauto. }
  split; [|split].
  - apply NoDup_app. split; [exact Hnd1|]. split; [|exact Hnd2].
    intros x Hx Hx'. apply (Hsep _ Hx). now right.
  - intros r Hr. rewrite length_alter. apply Hlt.
    rewrite elem_of_app in Hr. rewrite elem_of_app, elem_of_cons. tauto.
  - intros r k'. unfold AgentHub.TaskRef in *. rewrite list_lookup_alter.
    case_decide as Hd.
    + subst r. intros Hk'. apply fmap_Some in Hk' as (k & Hk & ->). split.
      * intros Hin. exfalso. apply elem_of_app in Hin as [Hin|Hin]; auto.
      * intros _. destruct (AgentHub.awaited s); simpl; split; auto; discriminate.
    + intros Hk. destruct (Hobj r k' Hk) as [Hin Hout]. split.
      * intros Hr. apply Hin, Hmem; [congruence|exact Hr].
      * intros Hr. apply Hout. intros Hr'. apply Hr, Hmem; [congruence|exact Hr'].
Qed.

(** X19: a task is [running], without an end time, exactly while its
    call is suspended at the [await]; once the promise it waits for is
    settled the task is [completed] or [failed] and has its end time, for
    good. This holds in a hub without tasks and through any sequence of
    [submitTask] calls and settlements, in any order: when no call is
    suspended any more, no task is [pending] or [running]. *)
Theorem task_lifecycle (es : list Runtime.Event) (rt : Runtime.t) :
  lifecycle_ok rt ->
  lifecycle_ok (Runtime.run es rt) /\
  (Runtime.inflight (Runtime.run es rt) = [] ->
   forall r k, AgentHub.deref r (Runtime.hub (Runtime.run es rt)) = Some k ->
     (AgentHub.status k = AgentHub.completed \/ AgentHub.status k = AgentHub.failed) /\
     AgentHub.endTime k <> None).
Proof.
  intros Hok.
  assert (Hrun : lifecycle_ok (Runtime.run es rt)).
  { unfold Runtime.run. revert rt Hok.
    induction es as [|e es IH]; intros rt Hok; simpl; [exact Hok|].
    apply IH. destruct e; [now apply submit_keeps_lifecycle|now apply settle_keeps_lifecycle]. }
  split; [exact Hrun|].
  intros Hnone r k Hk. destruct Hrun as (_ & _ & Hobj).
  apply (Hobj r k Hk). unfold suspended_refs. rewrite Hnone. apply not_elem_of_nil.
Qed.

Lemma task_lifecycle_witness :
  let rt := Runtime.mkRuntime default_hub default_world [] in
  let es := [Runtime.Submit "id-0" "x"; Runtime.Submit "id-1" "y"; Runtime.Submit "id-0" "z";
             Runtime.Settle 1; Runtime.Settle 1; Runtime.Settle 0] in
  lifecycle_ok rt /\
  Runtime.inflight (Runtime.run es rt) = [] /\
  map AgentHub.status (AgentHub.objects (Runtime.hub (Runtime.run es rt)))
    = [AgentHub.completed; AgentHub.completed; AgentHub.completed] /\
  forall r k, AgentHub.deref r (Runtime.hub (Runtime.run es rt)) = Some k ->
    AgentHub.endTime k <> None.
Proof.
  intros rt es.
  assert (Hok : lifecycle_ok rt).
  { split; [apply NoDup_nil_2|]. split; [intros r Hr; inversion Hr|].
    intros r k Hk. destruct r; discriminate. }
  assert (Hnone : Runtime.inflight (Runtime.run es rt) = []) by reflexivity.
  split; [exact Hok|]. split; [exact Hnone|]. split; [reflexivity|].
  intros r k Hk. exact (proj2 (proj2 (task_lifecycle es rt Hok) Hnone r k Hk)).
Defined.

(** ** The status of a session *)

Section Status.
Context {K : Type} `{KeyVault K}.

(** X20: [getStatus] reports the id and the name of the session, the
    size of its participant map, what the vault says is left of the
    budget, whatever the [budget] field holds, and [isActive]. For a new
    session that is one participant and active; after [end()] it is no
    participant and inactive, with the same budget left; and a
    participant added after [end()] is counted, so that a status can show
    participants in a session that is not active. *)
Theorem getStatus_reports (s : Session.t) (vs : Vaults K) :
  Session.getStatus s vs
    = Session.mkStatus (Session.id s) (Session.name s)
        (length (Session.getParticipants s)) (kv_getBudgetRemaining (vs (Session.keyVault s)))
        (Session.isActive s) /\
  (forall config keyVault w,
     let new := fst (Session.new config keyVault w) in
     Session.st_participants (Session.getStatus new vs) = 1 /\
     Session.st_isActive (Session.getStatus new vs) = true) /\
  Session.getStatus (Session.end_ s) vs
    = Session.mkStatus (Session.id s) (Session.name s) 0
        (Session.st_budgetRemaining (Session.getStatus s vs)) false /\
  (forall p,
     Session.getStatus (fst (Session.addParticipant p (Session.end_ s))) vs
       = Session.mkStatus (Session.id s) (Session.name s) 1
           (Session.st_budgetRemaining (Session.getStatus s vs)) false).
Proof.
  unfold Session.getStatus, Session.getParticipants, JsMap.values, JsMap.size,
    Session.getBudgetRemaining.
  rewrite length_map. repeat split.
Qed.

End Status.
